(** * Audio capture and re-encoding of [pages/page6.jsx]

    A shallow embedding of the recorder page of the beyond-words web client:
    the choice of the capture MIME type in [startRecording], the recorder's
    [onstop] handler, [convertToWav], [audioBufferToWav] with its [DataView]
    writes, and the form field built by [handleAnalyze].

    JavaScript numbers that hold samples are IEEE-754 binary64 values
    (Rocq's primitive floats); lengths, offsets and header fields are
    integers far below 2^53, kept in [nat] and [Z].  An [ArrayBuffer] is a
    list of bytes; a thrown exception or a rejected promise is [None]. *)

From Stdlib Require Import ZArith List String Ascii Lia.
From Stdlib Require Import FloatClass PrimFloat FloatOps SpecFloat.
From Stdlib Require Import FloatAxioms.
From stdpp Require Import base option list.
From coqutil Require Import Byte Word.LittleEndianList.

Local Open Scope Z_scope.

(** ** JavaScript numbers *)

Module JS.

(** [x] is the negative zero. *)
Definition is_negzero (x : float) : bool :=
  match classify x with NZero => true | _ => false end.

(** [x] is the positive zero. *)
Definition is_poszero (x : float) : bool :=
  match classify x with PZero => true | _ => false end.

(** [Math.min(a, b)]: NaN if either argument is NaN; -0 is below +0. *)
Definition Math_min (a b : float) : float :=
  if is_nan a || is_nan b then nan
  else if is_poszero a && is_negzero b then b
  else if (b <? a)%float then b else a.

(** [Math.max(a, b)]: NaN if either argument is NaN; +0 is above -0. *)
Definition Math_max (a b : float) : float :=
  if is_nan a || is_nan b then nan
  else if is_negzero a && is_poszero b then b
  else if (a <? b)%float then b else a.

(** The mathematical value of a finite number with its fraction dropped
    (truncation toward zero); 0 for NaN and the infinities, as the
    integer conversions of ECMAScript want it. *)
Definition truncate (x : float) : Z :=
  match Prim2SF x with
  | S754_finite s m e =>
      let a := Z.shiftl (Z.pos m) e in if s then - a else a
  | _ => 0
  end.

(** [ToInt16]: truncate, reduce modulo 2^16, read as two's complement. *)
Definition ToInt16 (x : float) : Z :=
  let int16bit := truncate x mod 2 ^ 16 in
  if 2 ^ 15 <=? int16bit then int16bit - 2 ^ 16 else int16bit.

(** [ToUint8], [ToUint16] and [ToUint32] of an integral number. *)
Definition ToUint8 (v : Z) : Z := v mod 2 ^ 8.
Definition ToUint16 (v : Z) : Z := v mod 2 ^ 16.
Definition ToUint32 (v : Z) : Z := v mod 2 ^ 32.

(** What a [Float32Array] keeps of a number stored into it: the nearest
    binary32 value, ties to even ([Math.fround]). *)
Definition fround (x : float) : float :=
  match Prim2SF x with
  | S754_finite s m e =>
      SF2Prim (binary_normalize 24 128 (cond_Zopp s (Z.pos m)) e s)
  | _ => x
  end.

(** [s.charCodeAt(i)] for the characters of a string literal. *)
Definition charCode (c : ascii) : Z := Z.of_N (N_of_ascii c).

(** [hay.includes(needle)]. *)
Fixpoint includes (needle hay : string) : bool :=
  String.prefix needle hay ||
  match hay with
  | EmptyString => false
  | String _ rest => includes needle rest
  end.

End JS.

(** ** Typed arrays and [DataView] *)

(** A [Float32Array] is the list of its elements, read as numbers.
    [a[i]] used as a number is [undefined] past the end, which arithmetic
    turns into NaN. *)
Definition typed_get (a : list float) (i : nat) : float :=
  default nan (a !! i).

(** [a[i] = v] on a [Float32Array]: rounds to single precision; an index
    past the end is ignored. *)
Definition typed_set (a : list float) (i : nat) (v : float) : list float :=
  <[i := JS.fround v]> a.

(** [new ArrayBuffer(n)]: [n] zero bytes. *)
Definition new_ArrayBuffer (n : Z) : list byte :=
  replicate (Z.to_nat n) Byte.x00.

Module DataView.

(** The bytes of an [n]-byte integer field in the requested byte order. *)
Definition raw_bytes (n : nat) (v : Z) (littleEndian : bool) : list byte :=
  if littleEndian then le_split n v else rev (le_split n v).

(** Store [bs] at byte offset [off]; a [RangeError] when the field does
    not fit in the buffer. *)
Definition store (off : nat) (bs : list byte) (buf : list byte)
  : option (list byte) :=
  if decide (off + length bs ≤ length buf)%nat
  then Some (take off buf ++ bs ++ drop (off + length bs) buf)
  else None.

Definition setUint8 (off : nat) (v : Z) (buf : list byte)
  : option (list byte) :=
  store off (raw_bytes 1 (JS.ToUint8 v) true) buf.

Definition setUint16 (off : nat) (v : Z) (littleEndian : bool)
    (buf : list byte) : option (list byte) :=
  store off (raw_bytes 2 (JS.ToUint16 v) littleEndian) buf.

Definition setUint32 (off : nat) (v : Z) (littleEndian : bool)
    (buf : list byte) : option (list byte) :=
  store off (raw_bytes 4 (JS.ToUint32 v) littleEndian) buf.

Definition setInt16 (off : nat) (v : float) (littleEndian : bool)
    (buf : list byte) : option (list byte) :=
  store off (raw_bytes 2 (JS.ToInt16 v) littleEndian) buf.

(** Reading a little-endian unsigned field of [n] bytes at [off]. *)
Definition getUintLE (n off : nat) (buf : list byte) : Z :=
  le_combine (take n (drop off buf)).

End DataView.

(** ** [audioBufferToWav] (page6.jsx, lines 90-145) *)

Local Open Scope string_scope.
Local Open Scope list_scope.

(** A decoded [AudioBuffer]: its sample rate, a whole number of Hz, and
    the sample data of its channels ([Float32Array]s). *)
Record AudioBuffer := {
  sampleRate : Z;
  channels : list (list float)
}.

Definition numberOfChannels (audioBuffer : AudioBuffer) : nat :=
  length (channels audioBuffer).

(** [audioBuffer.getChannelData(c)]; an [IndexSizeError] when there is no
    channel [c]. *)
Definition getChannelData (audioBuffer : AudioBuffer) (c : nat)
  : option (list float) :=
  channels audioBuffer !! c.

(** A [Blob]: its bytes and its MIME type. *)
Record Blob := {
  blob_data : list byte;
  blob_type : string
}.

(** One turn of the mixing loop (line 106):
    [audioData[i] = (left[i] + right[i]) / 2]. *)
Definition mix_step (left right audioData : list float) (i : nat)
  : list float :=
  typed_set audioData i ((typed_get left i + typed_get right i) / 2)%float.

(** Lines 104-107: a fresh [Float32Array(left.length)] filled by the loop
    over [i = 0 .. left.length - 1]. *)
Definition mix (left right : list float) : list float :=
  foldl (mix_step left right) (replicate (length left) 0%float)
        (seq 0 (length left)).

(** Lines 96-108, the mono sample data (the spec's [downmixToMono]):
    channel 0 itself for a single channel, otherwise the mix of channels
    0 and 1. *)
Definition downmixToMono (audioBuffer : AudioBuffer) : option (list float) :=
  if decide (numberOfChannels audioBuffer = 1%nat)
  then getChannelData audioBuffer 0
  else
    left ← getChannelData audioBuffer 0;
    right ← getChannelData audioBuffer 1;
    Some (mix left right).

(** Line 139: the sample clamped to [-1, 1]. *)
Definition clamp (x : float) : float :=
  JS.Math_max (-1) (JS.Math_min 1 x).

(** Line 140: the number handed to [setInt16] for an already clamped
    sample. *)
Definition scale (sample : float) : float :=
  if (sample <? 0)%float then (sample * 0x8000)%float
  else (sample * 0x7FFF)%float.

(** The signed 16-bit integer that lines 139-140 store for the sample [x]
    (the spec's [quantize]). *)
Definition quantize (x : float) : Z :=
  JS.ToInt16 (scale (clamp x)).

(** Lines 115-119. *)
Fixpoint writeString_from (i offset : nat) (s : string) (buf : list byte)
  : option (list byte) :=
  match s with
  | EmptyString => Some buf
  | String c s' =>
      buf ← DataView.setUint8 (offset + i) (JS.charCode c) buf;
      writeString_from (S i) offset s' buf
  end.

Definition writeString (offset : nat) (s : string) (buf : list byte)
  : option (list byte) :=
  writeString_from 0 offset s buf.

(** Lines 137-142: the sample loop, [offset] advancing by 2 (the
    [volume] of line 136 is never used). *)
Fixpoint writeSamples (audioData : list float) (offset : nat)
    (buf : list byte) : option (list byte) :=
  match audioData with
  | [] => Some buf
  | x :: rest =>
      let sample := clamp x in
      buf ← DataView.setInt16 offset (scale sample) true buf;
      writeSamples rest (offset + 2) buf
  end.

(** Lines 91-94 and 110-142: the container written for the mono data
    (the spec's [encodePcmContainer], with the quantisation of line 140
    inside its sample loop). *)
Definition encodePcmContainer (sampleRate : Z) (audioData : list float)
  : option (list byte) :=
  let numChannels := 1%Z in
  let format := 1%Z in
  let bitDepth := 16%Z in
  let dataLength := (Z.of_nat (length audioData) * (bitDepth / 8))%Z in
  let buffer := new_ArrayBuffer (44 + dataLength) in
  buffer ← writeString 0 "RIFF" buffer;
  buffer ← DataView.setUint32 4 (36 + dataLength) true buffer;
  buffer ← writeString 8 "WAVE" buffer;
  buffer ← writeString 12 "fmt " buffer;
  buffer ← DataView.setUint32 16 16 true buffer;
  buffer ← DataView.setUint16 20 format true buffer;
  buffer ← DataView.setUint16 22 numChannels true buffer;
  buffer ← DataView.setUint32 24 sampleRate true buffer;
  buffer ← DataView.setUint32 28
             (sampleRate * numChannels * (bitDepth / 8)) true buffer;
  buffer ← DataView.setUint16 32 (numChannels * (bitDepth / 8)) true buffer;
  buffer ← DataView.setUint16 34 bitDepth true buffer;
  buffer ← writeString 36 "data" buffer;
  buffer ← DataView.setUint32 40 dataLength true buffer;
  writeSamples audioData 44 buffer.

Definition audioBufferToWav (audioBuffer : AudioBuffer) : option Blob :=
  audioData ← downmixToMono audioBuffer;
  buffer ← encodePcmContainer (sampleRate audioBuffer) audioData;
  Some {| blob_data := buffer; blob_type := "audio/wav" |}.

(** ** The recorder (page6.jsx, lines 14-87 and 158-192) *)

(** What the page tells the outside: console lines and alert boxes. *)
Inductive event :=
| ConsoleLog (msg : string)
| ConsoleError (msg : string)
| Alert (msg : string).

(** The [audioData] state of the component. *)
Record AudioData := {
  blob : Blob;
  url : string
}.

(** Line 21: the preferred type. *)
Definition wav_type : string := "audio/wav".

(** Lines 26-32. *)
Definition formats : list string :=
  [ "audio/webm;codecs=pcm";
    "audio/webm;codecs=opus";
    "audio/webm";
    "audio/ogg;codecs=opus";
    "audio/mp4" ].

(** [found || fallback] for the result of [Array.prototype.find] on
    strings: [undefined] and the empty string are falsy. *)
Definition or_else (found : option string) (fallback : string) : string :=
  match found with
  | Some EmptyString | None => fallback
  | Some s => s
  end.

Section Recorder.

(** The platform: [MediaRecorder.isTypeSupported], the decoding of
    lines 80-82 ([None] when it throws or rejects) and
    [URL.createObjectURL]. *)
Variable isTypeSupported : string → bool.
Variable decodeAudioData : list byte → option AudioBuffer.
Variable createObjectURL : Blob → string.

(** Lines 20-36 of [startRecording]: the MIME type the recorder is
    created with (the spec's [selectCaptureFormat]) and what is
    reported meanwhile. *)
Definition selectCaptureFormat : string * list event :=
  let mimeType := wav_type in
  if negb (isTypeSupported mimeType) then
    let mimeType :=
      or_else (List.find isTypeSupported formats) "audio/webm" in
    (mimeType,
     [ ConsoleLog "WAV not supported, checking alternatives...";
       ConsoleLog "Using format:" ])
  else (mimeType, []).

(** Lines 79-87. *)
Definition convertToWav (b : Blob) : option Blob :=
  audioBuffer ← decodeAudioData (blob_data b);
  audioBufferToWav audioBuffer.

(** Lines 45-67, [mediaRecorder.onstop] (the spec's [reencodeIfNeeded]):
    the new [audioData] and what is reported. *)
Definition onstop (mimeType : string) (chunks : list (list byte))
  : AudioData * list event :=
  let b := {| blob_data := concat chunks; blob_type := mimeType |} in
  if JS.includes "webm" mimeType || JS.includes "ogg" mimeType then
    match convertToWav b with
    | Some wavBlob =>
        ({| blob := wavBlob; url := createObjectURL wavBlob |},
         [ ConsoleLog "Converting to WAV format...";
           ConsoleLog "Converted to WAV. Size:" ])
    | None =>
        ({| blob := b; url := createObjectURL b |},
         [ ConsoleLog "Converting to WAV format...";
           ConsoleError "Conversion failed:" ])
    end
  else
    ({| blob := b; url := createObjectURL b |},
     [ ConsoleLog "Recording stopped. Audio size:" ]).

End Recorder.

(** Lines 159-173 of [handleAnalyze]: the [file] field of the form that is
    posted (field name, content, file name), or the alert when nothing was
    recorded. *)
Definition handleAnalyze_form (audioData : option AudioData)
  : (string * Blob * string) + event :=
  match audioData with
  | None => inr (Alert "Please record something first!")
  | Some a => inl ("file", blob a, "recording.wav")
  end.

(** The candidates of lines 21-32 in the order they are tried. *)
Definition candidates : list string := wav_type :: formats.

(** ** Auxiliary notions for the statements *)

(** A buffer of [total] bytes whose first bytes are [pre] and whose other
    bytes are still zero. *)
Definition filled (pre : list byte) (total : nat) : list byte :=
  pre ++ replicate (total - length pre) Byte.x00.

(** The bytes [writeString] leaves for a string. *)
Definition string_bytes (s : string) : list byte :=
  (λ c, byte.of_Z (JS.ToUint8 (JS.charCode c))) <$> list_ascii_of_string s.

(** The header of lines 121-133 as one list of fields. *)
Definition wav_header (sampleRate dataLength : Z) : list byte :=
  string_bytes "RIFF"
  ++ le_split 4 (JS.ToUint32 (36 + dataLength))
  ++ string_bytes "WAVE"
  ++ string_bytes "fmt "
  ++ le_split 4 (JS.ToUint32 16)
  ++ le_split 2 (JS.ToUint16 1)
  ++ le_split 2 (JS.ToUint16 1)
  ++ le_split 4 (JS.ToUint32 sampleRate)
  ++ le_split 4 (JS.ToUint32 (sampleRate * 1 * (16 / 8)))
  ++ le_split 2 (JS.ToUint16 (1 * (16 / 8)))
  ++ le_split 2 (JS.ToUint16 16)
  ++ string_bytes "data"
  ++ le_split 4 (JS.ToUint32 dataLength).

(** The payload of lines 137-142: each sample as a little-endian int16. *)
Definition payload (audioData : list float) : list byte :=
  x ← audioData; le_split 2 (quantize x).

(** The number line 106 stores at index [i]. *)
Definition mixed (left right : list float) (i : nat) : float :=
  JS.fround ((typed_get left i + typed_get right i) / 2)%float.

(** Whether [onstop] converts a recording of this MIME type (line 49). *)
Definition converted (mimeType : string) : bool :=
  JS.includes "webm" mimeType || JS.includes "ogg" mimeType.

(** ** The rest of the recorder page (page6.jsx, lines 14-76 and 147-192)
    and its route (App.js, lines 47-55) *)

(** Reading a little-endian signed 16-bit field at [off]
    ([getInt16(off, true)]). *)
Definition getInt16LE (off : nat) (buf : list byte) : Z :=
  let u := DataView.getUintLE 2 off buf in
  if (2 ^ 15 <=? u)%Z then (u - 2 ^ 16)%Z else u.

(** Lines 41-43, [mediaRecorder.ondataavailable]: the chunks after an
    event whose [data] is [e_data] ([None] when the event carries none). *)
Definition ondataavailable (chunks : list (list byte))
    (e_data : option (list byte)) : list (list byte) :=
  match e_data with
  | Some d => if decide (0 < length d)%nat then chunks ++ [d] else chunks
  | None => chunks
  end.

(** The [recording] state once a recorder runs: the type the recorder was
    made with and the tracks of its stream. *)
Record Recording := {
  recorder_type : string;
  stream : list nat
}.

(** What a handler does to the page and the platform. *)
Inductive effect :=
| Report (e : event)
| RecorderStart
| RecorderStop
| TrackStop (track : nat)
| SetInnerText (text : string)
| SetOpacity (value : string)
| Fetch (url : string) (field : string * Blob * string)
| StorageSet (key value : string)
| Navigate (path : string).

(** How [fetch] ends: the promise rejects, or a response arrives with its
    [ok] flag and what [res.json()] gives ([None] when that rejects). *)
Inductive fetch_outcome (json : Type) :=
| Rejected
| Responded (ok : bool) (body : option json).

Arguments Rejected {json}.
Arguments Responded {json} ok body.

(** Lines 14-76, [startRecording].  [getUserMedia] is the stream the user
    grants ([None] when the request is refused or cannot be made),
    [MediaRecorder_defined] tells whether the platform has [MediaRecorder]
    at all (without it line 22 throws), [MediaRecorder_new] whether the
    constructor of line 38 accepts a type, and [MediaRecorder_start]
    whether [start()] of a recorder made with that type returns (line
    69).  Every failure ends in the [catch] of lines 72-75.  The result
    is the [recording] state and what was done. *)
Definition startRecording (getUserMedia : option (list nat))
    (MediaRecorder_defined : bool)
    (isTypeSupported : string → bool)
    (MediaRecorder_new MediaRecorder_start : string → bool)
    (recording : option Recording) : option Recording * list effect :=
  let failed :=
    [ Report (ConsoleError "Microphone access error:");
      Report (Alert "Please allow microphone permission to record audio.") ] in
  match getUserMedia with
  | None =>
      (recording,
       Report (ConsoleLog "Requesting microphone permission...") :: failed)
  | Some granted =>
      let permitted :=
        [ Report (ConsoleLog "Requesting microphone permission...");
          Report (ConsoleLog "Microphone access granted.") ] in
      if MediaRecorder_defined then
        let chosen := selectCaptureFormat isTypeSupported in
        let asked := permitted ++ (Report <$> chosen.2) in
        if MediaRecorder_new chosen.1 then
          if MediaRecorder_start chosen.1 then
            (Some {| recorder_type := chosen.1; stream := granted |},
             asked ++ [ RecorderStart;
                        Report (ConsoleLog "Recording started.") ])
          else (recording, asked ++ failed)
        else (recording, asked ++ failed)
      else (recording, permitted ++ failed)
  end.

(** Lines 148-155, [stopRecording]. *)
Definition stopRecording (recording : option Recording)
  : option Recording * list effect :=
  match recording with
  | Some r =>
      (None,
       RecorderStop :: (TrackStop <$> stream r)
       ++ [ Report (ConsoleLog "Recording and stream stopped.") ])
  | None => (None, [])
  end.

(** App.js, lines 47-55: the callbacks [Page6Wrapper] passes. *)
Definition Page6Wrapper_onAnalyze : list effect := [ Navigate "/page8" ].
Definition Page6Wrapper_onBack : list effect := [ Navigate "/page4" ].

Section Analyze.

(** The parsed response, [JSON.stringify], the environment variable
    [REACT_APP_BACKEND_URL], [fetch], whether [localStorage.setItem]
    stores (or throws), and the [onAnalyze] property. *)
Variable json : Type.
Variable JSON_stringify : json → string.
Variable REACT_APP_BACKEND_URL : option string.
Variable fetch : string → string * Blob * string → fetch_outcome json.
Variable setItem : string → string → bool.
Variable onAnalyze : option (json → list effect).

(** Lines 158-192, [handleAnalyze]. *)
Definition handleAnalyze (audioData : option AudioData) : list effect :=
  match handleAnalyze_form audioData with
  | inr alert => [ Report alert ]
  | inl form =>
      let backendUrl :=
        or_else REACT_APP_BACKEND_URL "http://127.0.0.1:8000" in
      let request := Fetch (String.append backendUrl "/predict") form in
      let failed :=
        [ Report (ConsoleError "Error uploading audio:");
          Report (Alert
            "Failed to analyze audio. Make sure the backend is running!") ] in
      [ SetInnerText "Analyzing..."; SetOpacity "0.7"; request ]
      ++ match fetch (String.append backendUrl "/predict") form with
         | Responded true (Some result) =>
             if setItem "emotionResult" (JSON_stringify result)
             then StorageSet "emotionResult" (JSON_stringify result)
                  :: from_option (λ f, f result) [] onAnalyze
             else failed
         | _ => failed
         end
      ++ [ SetInnerText "Analyze"; SetOpacity "1" ]
  end.

(** The address the form is posted to (lines 169-175). *)
Definition analyze_endpoint : string :=
  String.append (or_else REACT_APP_BACKEND_URL "http://127.0.0.1:8000")
    "/predict".

(** The analysis went through: there is a recording, the response is ok,
    its JSON is read and [localStorage] takes the result. *)
Definition analysis_succeeded (audioData : option AudioData) : Prop :=
  ∃ a result,
    audioData = Some a
    ∧ fetch analyze_endpoint ("file", blob a, "recording.wav")
      = Responded true (Some result)
    ∧ setItem "emotionResult" (JSON_stringify result) = true.

End Analyze.

Arguments handleAnalyze {json}.
Arguments analysis_succeeded {json}.

(** [handleAnalyze] with the [onAnalyze] that [Page6Wrapper] passes. *)
Definition routed_handleAnalyze {json : Type}
    (JSON_stringify : json → string)
    (REACT_APP_BACKEND_URL : option string)
    (fetch : string → string * Blob * string → fetch_outcome json)
    (setItem : string → string → bool)
    (audioData : option AudioData) : list effect :=
  handleAnalyze JSON_stringify REACT_APP_BACKEND_URL fetch setItem
    (Some (λ _, Page6Wrapper_onAnalyze)) audioData.

(** The page after a session: the chunks gathered from the delivered
    [dataavailable] events, then [onstop]. *)
Definition session_end (decodeAudioData : list byte → option AudioBuffer)
    (createObjectURL : Blob → string) (mimeType : string)
    (delivered : list (option (list byte))) : AudioData * list event :=
  onstop decodeAudioData createObjectURL mimeType
    (foldl ondataavailable [] delivered).


(** ** Filling a fresh buffer front to back *)

Lemma filled_nil (total : nat) :
  filled [] total = replicate total Byte.x00.
Proof. unfold filled. simpl. by rewrite Nat.sub_0_r. Qed.

Lemma filled_full (pre : list byte) (total : nat) :
  length pre = total → filled pre total = pre.
Proof.
  intros <-. unfold filled. rewrite Nat.sub_diag. simpl. apply app_nil_r.
Qed.

Lemma length_filled (pre : list byte) (total : nat) :
  (length pre ≤ total)%nat → length (filled pre total) = total.
Proof.
  intros Hle. unfold filled. rewrite length_app, length_replicate. lia.
Qed.

Lemma store_filled (off : nat) (bs pre : list byte) (total : nat) :
  off = length pre →
  (length pre + length bs ≤ total)%nat →
  DataView.store off bs (filled pre total) = Some (filled (pre ++ bs) total).
Proof.
  intros -> Hle. unfold DataView.store.
  rewrite length_filled by lia.
  rewrite decide_True by done.
  f_equal. unfold filled.
  rewrite take_app_length, drop_app_add, drop_replicate, length_app.
  rewrite <- !(assoc_L (++)). do 3 f_equal. lia.
Qed.

Lemma length_raw_bytes (n : nat) (v : Z) (littleEndian : bool) :
  length (DataView.raw_bytes n v littleEndian) = n.
Proof.
  unfold DataView.raw_bytes.
  destruct littleEndian; rewrite ?length_rev; apply length_le_split.
Qed.

Lemma writeString_from_filled (s : string) (i offset : nat)
    (pre : list byte) (total : nat) :
  (offset + i)%nat = length pre →
  (length pre + String.length s ≤ total)%nat →
  writeString_from i offset s (filled pre total)
  = Some (filled (pre ++ string_bytes s) total).
Proof.
  revert i pre. induction s as [|c s IH]; intros i pre Hoff Hle.
  - simpl. by rewrite app_nil_r.
  - simpl in Hle |- *. unfold DataView.setUint8.
    rewrite (store_filled _ _ pre) by (simpl; lia). simpl.
    rewrite IH.
    + unfold string_bytes. simpl. by rewrite <- (assoc_L (++)).
    + rewrite length_app. simpl. lia.
    + rewrite length_app. simpl. lia.
Qed.

Lemma writeString_filled (s : string) (offset : nat) (pre : list byte)
    (total : nat) :
  offset = length pre →
  (length pre + String.length s ≤ total)%nat →
  writeString offset s (filled pre total)
  = Some (filled (pre ++ string_bytes s) total).
Proof.
  intros Hoff Hle. apply writeString_from_filled; [lia | done].
Qed.

Lemma payload_cons (x : float) (rest : list float) :
  payload (x :: rest)
  = DataView.raw_bytes 2 (JS.ToInt16 (scale (clamp x))) true ++ payload rest.
Proof. reflexivity. Qed.

Lemma writeSamples_filled (audioData : list float) (offset : nat)
    (pre : list byte) (total : nat) :
  offset = length pre →
  (length pre + 2 * length audioData ≤ total)%nat →
  writeSamples audioData offset (filled pre total)
  = Some (filled (pre ++ payload audioData) total).
Proof.
  revert offset pre.
  induction audioData as [|x rest IH]; intros offset pre Hoff Hle.
  - simpl. by rewrite app_nil_r.
  - cbn [writeSamples length] in Hle |- *. unfold DataView.setInt16.
    rewrite (store_filled _ _ pre) by (rewrite ?length_raw_bytes; lia).
    cbn [mbind option_bind]. rewrite IH.
    + by rewrite payload_cons, (assoc_L (++)).
    + rewrite length_app, length_raw_bytes. lia.
    + rewrite length_app, length_raw_bytes. lia.
Qed.

Lemma length_string_bytes (s : string) :
  length (string_bytes s) = String.length s.
Proof.
  unfold string_bytes. rewrite length_fmap.
  induction s; simpl; congruence.
Qed.

Lemma length_wav_header (sampleRate dataLength : Z) :
  length (wav_header sampleRate dataLength) = 44%nat.
Proof. reflexivity. Qed.

Lemma length_payload (audioData : list float) :
  length (payload audioData) = (2 * length audioData)%nat.
Proof.
  unfold payload. induction audioData as [|x rest IH]; [done|].
  rewrite bind_cons, length_app, length_le_split, IH. simpl. lia.
Qed.

(** One header or payload write on a buffer filled up to the offset. *)
Ltac fill_bound :=
  rewrite ?length_app, ?length_string_bytes, ?length_raw_bytes,
    ?length_payload; simpl; lia.

Ltac fill_step :=
  first
    [ rewrite writeString_filled by first [ reflexivity | fill_bound ]
    | rewrite store_filled by first [ reflexivity | fill_bound ] ];
  cbn [mbind option_bind].

Lemma new_ArrayBuffer_filled (n : nat) :
  new_ArrayBuffer (44 + Z.of_nat n * (16 / 8)) = filled [] (44 + 2 * n).
Proof.
  unfold new_ArrayBuffer. rewrite filled_nil. f_equal.
  change (16 / 8) with 2. lia.
Qed.

(** The container is the 44-byte header followed by the payload, and the
    writes of [audioBufferToWav] never leave the buffer. *)
Lemma encodePcmContainer_eq (sampleRate : Z) (audioData : list float) :
  encodePcmContainer sampleRate audioData
  = Some (wav_header sampleRate (Z.of_nat (length audioData) * (16 / 8))
          ++ payload audioData).
Proof.
  unfold encodePcmContainer. cbv zeta.
  rewrite new_ArrayBuffer_filled.
  unfold DataView.setUint32, DataView.setUint16.
  do 13 fill_step.
  rewrite writeSamples_filled by first [ reflexivity | fill_bound ].
  f_equal. rewrite filled_full.
  - unfold wav_header. simpl app at 1. by rewrite <- !(assoc_L (++)).
  - fill_bound.
Qed.

(** ** The mixing loop *)

Lemma mix_step_insert (left right audioData : list float) (i : nat) :
  mix_step left right audioData i = <[i := mixed left right i]> audioData.
Proof. reflexivity. Qed.

Lemma mix_loop_spec (left right : list float) (n : nat) (acc : list float) :
  (n ≤ length acc)%nat →
  let out := foldl (mix_step left right) acc (seq 0 n) in
  length out = length acc
  ∧ (∀ i, (i < n)%nat → out !! i = Some (mixed left right i))
  ∧ (∀ i, (n ≤ i)%nat → out !! i = acc !! i).
Proof.
  induction n as [|n IH]; intros Hn; cbv zeta.
  - split; [done|]. split; [intros i Hi; lia | done].
  - rewrite seq_S, foldl_app. cbn [foldl Nat.add].
    destruct IH as (Hlen & Hdone & Hrest); [lia|].
    rewrite mix_step_insert, length_insert. split; [done|]. split.
    + intros i Hi. destruct (decide (i = n)) as [->|Hne].
      * rewrite list_lookup_insert_eq by lia. done.
      * rewrite list_lookup_insert_ne by done. apply Hdone. lia.
    + intros i Hi. rewrite list_lookup_insert_ne by lia. apply Hrest. lia.
Qed.

Lemma length_mix (left right : list float) :
  length (mix left right) = length left.
Proof.
  unfold mix.
  destruct (mix_loop_spec left right (length left)
              (replicate (length left) 0%float)) as (Hlen & _).
  - by rewrite length_replicate.
  - by rewrite Hlen, length_replicate.
Qed.

Lemma mix_lookup (left right : list float) (i : nat) :
  (i < length left)%nat →
  mix left right !! i = Some (mixed left right i).
Proof.
  intros Hi. unfold mix.
  destruct (mix_loop_spec left right (length left)
              (replicate (length left) 0%float)) as (_ & Hdone & _).
  - by rewrite length_replicate.
  - by apply Hdone.
Qed.

(** ** Comparisons of numbers *)

(** [SFcompare] is antisymmetric. *)
Lemma SFcompare_Lt_Gt (a b : spec_float) :
  SFcompare a b = Some Lt → SFcompare b a = Some Gt.
Proof.
  destruct a as [sa|sa| |sa ma ea], b as [sb|sb| |sb mb eb];
    try destruct sa; try destruct sb; cbn [SFcompare];
    try discriminate; try reflexivity.
  - rewrite (Z.compare_antisym ea eb).
    pose proof (Pos.compare_cont_antisym ma mb Eq) as Hm.
    cbn [CompOpp] in Hm. rewrite <- Hm.
    destruct (Z.compare ea eb); cbn [CompOpp];
      try discriminate; try reflexivity.
    destruct (Pos.compare_cont Eq ma mb); cbn [CompOpp]; done.
  - rewrite (Z.compare_antisym ea eb).
    pose proof (Pos.compare_cont_antisym ma mb Eq) as Hm.
    cbn [CompOpp] in Hm. rewrite <- Hm.
    destruct (Z.compare ea eb); cbn [CompOpp];
      try discriminate; try reflexivity.
    destruct (Pos.compare_cont Eq ma mb); cbn [CompOpp]; done.
Qed.

(** A number that compares with another one is not NaN. *)
Lemma SFcompare_refl_r (a b : spec_float) (c : comparison) :
  SFcompare a b = Some c → SFcompare b b = Some Eq.
Proof.
  destruct b as [sb|sb| |sb mb eb]; cbn [SFcompare].
  - done.
  - by destruct sb.
  - by destruct a.
  - intros _. rewrite Z.compare_refl, Pos.compare_cont_refl. by destruct sb.
Qed.

Lemma ltb_true_not_nan_r (x y : float) :
  (x <? y)%float = true → is_nan y = false.
Proof.
  rewrite FloatAxioms.ltb_spec. unfold SFltb, is_nan.
  rewrite FloatAxioms.eqb_spec. unfold SFeqb.
  destruct (SFcompare (Prim2SF x) (Prim2SF y)) as [c|] eqn:Hc; [|done].
  intros _. by rewrite (SFcompare_refl_r _ _ _ Hc).
Qed.

Lemma ltb_true_not_nan_l (x y : float) :
  (x <? y)%float = true → is_nan x = false.
Proof.
  rewrite FloatAxioms.ltb_spec. unfold SFltb.
  destruct (SFcompare (Prim2SF x) (Prim2SF y)) as [[]|] eqn:Hc; try done.
  intros _. apply SFcompare_Lt_Gt in Hc.
  unfold is_nan. rewrite FloatAxioms.eqb_spec. unfold SFeqb.
  by rewrite (SFcompare_refl_r _ _ _ Hc).
Qed.

Lemma ltb_asym (x y : float) :
  (x <? y)%float = true → (y <? x)%float = false.
Proof.
  rewrite !FloatAxioms.ltb_spec. unfold SFltb.
  destruct (SFcompare (Prim2SF x) (Prim2SF y)) as [[]|] eqn:Hc; try done.
  intros _. by rewrite (SFcompare_Lt_Gt _ _ Hc).
Qed.

(** Below -1 is below 1. *)
Lemma ltb_minus_one_one (x : float) :
  (x <? -1)%float = true → (x <? 1)%float = true.
Proof.
  rewrite !FloatAxioms.ltb_spec. unfold SFltb.
  change (Prim2SF (-1)) with (S754_finite true 4503599627370496 (-52)).
  change (Prim2SF 1) with (S754_finite false 4503599627370496 (-52)).
  destruct (Prim2SF x) as [s|s| |s m e]; try destruct s;
    cbn [SFcompare]; done.
Qed.

(** ** Clamping *)

Lemma clamp_cases (x : float) :
  clamp x = nan ∨ clamp x = 1%float ∨ clamp x = (-1)%float
  ∨ (clamp x = x ∧ is_nan x = false ∧ (x <? 1)%float = true
     ∧ (-1 <? x)%float = true).
Proof.
  unfold clamp, JS.Math_min.
  change (is_nan 1) with false. change (JS.is_poszero 1) with false.
  cbn [orb andb].
  destruct (is_nan x) eqn:Hnan; [by left|].
  destruct (x <? 1)%float eqn:Hlt.
  - unfold JS.Math_max. rewrite Hnan.
    change (is_nan (-1)) with false. change (JS.is_negzero (-1)) with false.
    cbn [orb andb].
    destruct (-1 <? x)%float eqn:Hgt; [by right; right; right|].
    by right; right; left.
  - right; left. reflexivity.
Qed.

Lemma clamp_idempotent (x : float) : clamp (clamp x) = clamp x.
Proof.
  destruct (clamp_cases x) as [H|[H|[H|(H & Hnan & Hlt & Hgt)]]];
    rewrite H; try reflexivity.
  unfold clamp, JS.Math_min, JS.Math_max.
  change (is_nan 1) with false. change (JS.is_poszero 1) with false.
  change (is_nan (-1)) with false. change (JS.is_negzero (-1)) with false.
  cbn [orb andb]. rewrite Hnan, Hlt. by rewrite Hnan, Hgt.
Qed.

(** Above 1 the clamped sample is 1. *)
Lemma clamp_above (x : float) : (1 <? x)%float = true → clamp x = 1%float.
Proof.
  intros Hx. unfold clamp, JS.Math_min.
  rewrite (ltb_true_not_nan_r _ _ Hx), (ltb_asym _ _ Hx).
  reflexivity.
Qed.

(** Below -1 the clamped sample is -1. *)
Lemma clamp_below (x : float) :
  (x <? -1)%float = true → clamp x = (-1)%float.
Proof.
  intros Hx. unfold clamp, JS.Math_min.
  rewrite (ltb_true_not_nan_l _ _ Hx), (ltb_minus_one_one _ Hx).
  change (is_nan 1) with false. change (JS.is_poszero 1) with false.
  cbn [orb andb]. unfold JS.Math_max.
  rewrite (ltb_true_not_nan_l _ _ Hx), (ltb_asym _ _ Hx).
  reflexivity.
Qed.

(** ** Quantisation (lines 139-140) *)

(** C3. The boundary and zero samples are mapped exactly:
    [quantize 1.0 = 32767], [quantize (-1.0) = -32768] and
    [quantize 0.0 = 0]. *)
Theorem quantize_boundaries :
  quantize 1 = 32767 ∧ quantize (-1) = -32768 ∧ quantize 0 = 0.
Proof. repeat split; vm_compute; reflexivity. Qed.

(** C4. Quantising clamps first: every number [x], inside or outside
    [-1, 1] and NaN included, is quantised like its clamped value
    [Math.max(-1, Math.min(1, x))]; every number above 1 like 1.0 and
    every number below -1 like -1.0, in particular 1.5 like 1.0 and -2.0
    like -1.0. *)
Theorem quantize_clamps_first :
  (∀ x : float, quantize x = quantize (JS.Math_max (-1) (JS.Math_min 1 x)))
  ∧ (∀ x : float, (1 <? x)%float = true → quantize x = quantize 1)
  ∧ (∀ x : float, (x <? -1)%float = true → quantize x = quantize (-1))
  ∧ quantize 1.5 = quantize 1
  ∧ quantize (-2) = quantize (-1).
Proof.
  split; [|split; [|split]].
  - intros x. unfold quantize. fold (clamp x). by rewrite clamp_idempotent.
  - intros x Hx. unfold quantize. by rewrite (clamp_above x Hx).
  - intros x Hx. unfold quantize. by rewrite (clamp_below x Hx).
  - split; vm_compute; reflexivity.
Qed.

(** Between the bounds the scaled sample is truncated toward zero, and
    NaN is stored as 0. *)
Example quantize_samples :
  quantize 0.5 = 16383 ∧ quantize (-0.5) = -16384 ∧ quantize nan = 0
  ∧ quantize infinity = 32767 ∧ quantize neg_infinity = -32768.
Proof. repeat split; vm_compute; reflexivity. Qed.

(** ** The container (lines 110-142) *)

Lemma getUintLE_app (n off : nat) (pre field rest : list byte) :
  off = length pre → n = length field →
  DataView.getUintLE n off (pre ++ field ++ rest) = le_combine field.
Proof.
  intros -> ->. unfold DataView.getUintLE.
  by rewrite drop_app_length, take_app_length.
Qed.

Lemma payload_silence (n : nat) :
  payload (replicate n 0%float) = replicate (2 * n) Byte.x00.
Proof.
  induction n as [|n IH]; [done|].
  cbn [replicate]. rewrite payload_cons, IH.
  replace (2 * S n)%nat with (S (S (2 * n))) by lia. reflexivity.
Qed.

Lemma encodePcmContainer_length (sampleRate : Z) (audioData : list float)
    (bytes : list byte) :
  encodePcmContainer sampleRate audioData = Some bytes →
  length bytes = (44 + 2 * length audioData)%nat.
Proof.
  rewrite encodePcmContainer_eq. intros H. apply (inj Some) in H. subst bytes.
  by rewrite length_app, length_wav_header, length_payload.
Qed.

(** C6. The container written for [N] samples is [44 + 2 * N] bytes long,
    and the four bytes at offset 4, read as a little-endian unsigned
    integer, are that length minus 8; the size field has 32 bits, so the
    container is taken to be shorter than [2^32] bytes. *)
Theorem container_length_and_size_field (sampleRate : Z)
    (audioData : list float) :
  44 + 2 * Z.of_nat (length audioData) < 2 ^ 32 →
  ∃ bytes,
    encodePcmContainer sampleRate audioData = Some bytes
    ∧ length bytes = (44 + 2 * length audioData)%nat
    ∧ DataView.getUintLE 4 4 bytes = Z.of_nat (length bytes) - 8.
Proof.
  intros Hsize. eexists. split; [apply encodePcmContainer_eq|].
  rewrite length_app, length_wav_header, length_payload.
  split; [done|].
  unfold wav_header. rewrite <- !(assoc_L (++)).
  rewrite getUintLE_app by reflexivity.
  rewrite le_combine_split. unfold JS.ToUint32.
  change (16 / 8) with 2. change (Z.of_nat 4 * 8) with 32.
  rewrite Zmod_mod, Z.mod_small by lia. lia.
Qed.

Lemma container_length_and_size_field_witness :
  let audioData := [1%float; (-1)%float; 0.5%float] in
  44 + 2 * Z.of_nat (length audioData) < 2 ^ 32
  ∧ ∃ bytes,
      encodePcmContainer 44100 audioData = Some bytes
      ∧ length bytes = (44 + 2 * length audioData)%nat
      ∧ DataView.getUintLE 4 4 bytes = Z.of_nat (length bytes) - 8.
Proof.
  split; [reflexivity|].
  apply (container_length_and_size_field 44100). reflexivity.
Defined.

(** Reading back a field that the header holds at [off]. *)
Lemma header_u32 (off : nat) (v : Z) (sampleRate dataLength : Z)
    (rest : list byte) :
  take 4 (drop off (wav_header sampleRate dataLength ++ rest))
  = le_split 4 (JS.ToUint32 v) →
  0 ≤ v < 2 ^ 32 →
  DataView.getUintLE 4 off (wav_header sampleRate dataLength ++ rest) = v.
Proof.
  intros Hfield Hv. unfold DataView.getUintLE.
  rewrite Hfield, le_combine_split. unfold JS.ToUint32.
  change (Z.of_nat 4 * 8) with 32.
  by rewrite Zmod_mod, Z.mod_small.
Qed.

Lemma header_u16 (off : nat) (v : Z) (sampleRate dataLength : Z)
    (rest : list byte) :
  take 2 (drop off (wav_header sampleRate dataLength ++ rest))
  = le_split 2 (JS.ToUint16 v) →
  0 ≤ v < 2 ^ 16 →
  DataView.getUintLE 2 off (wav_header sampleRate dataLength ++ rest) = v.
Proof.
  intros Hfield Hv. unfold DataView.getUintLE.
  rewrite Hfield, le_combine_split. unfold JS.ToUint16.
  change (Z.of_nat 2 * 8) with 16.
  by rewrite Zmod_mod, Z.mod_small.
Qed.

(** C7. In every container the payload-length field (offset 40) is the
    number of bytes that follow the 44-byte header; the multi-byte fields
    read back little-endian as the values written (chunk sizes, format 1,
    1 channel, the sample rate, 16 bits); the byte rate (offset 28) is
    sample rate x channels x (bit depth / 8) and the block alignment
    (offset 32) is channels x (bit depth / 8).  The fields have 32 bits:
    the sample rate is below [2^31] and the container shorter than
    [2^32] bytes. *)
Theorem header_fields_consistent (sampleRate : Z) (audioData : list float) :
  0 ≤ sampleRate < 2 ^ 31 →
  44 + 2 * Z.of_nat (length audioData) < 2 ^ 32 →
  ∃ bytes,
    encodePcmContainer sampleRate audioData = Some bytes
    ∧ let u32 off := DataView.getUintLE 4 off bytes in
      let u16 off := DataView.getUintLE 2 off bytes in
      u32 40%nat = Z.of_nat (length (drop 44 bytes))
      ∧ u32 4%nat = 36 + u32 40%nat
      ∧ u32 16%nat = 16
      ∧ u16 20%nat = 1
      ∧ u16 22%nat = 1
      ∧ u32 24%nat = sampleRate
      ∧ u16 34%nat = 16
      ∧ u32 28%nat = u32 24%nat * u16 22%nat * (u16 34%nat / 8)
      ∧ u16 32%nat = u16 22%nat * (u16 34%nat / 8).
Proof.
  intros Hrate Hsize. eexists. split; [apply encodePcmContainer_eq|].
  cbv beta zeta.
  set (dataLength := Z.of_nat (length audioData) * (16 / 8)).
  assert (Hdl : dataLength = 2 * Z.of_nat (length audioData))
    by (unfold dataLength; change (16 / 8) with 2; lia).
  rewrite (header_u32 40 dataLength) by (reflexivity || lia).
  rewrite (header_u32 4 (36 + dataLength)) by (reflexivity || lia).
  rewrite (header_u32 16 16) by (reflexivity || lia).
  rewrite (header_u16 20 1) by (reflexivity || lia).
  rewrite (header_u16 22 1) by (reflexivity || lia).
  rewrite (header_u32 24 sampleRate) by (reflexivity || lia).
  rewrite (header_u16 34 16) by (reflexivity || lia).
  rewrite (header_u32 28 (sampleRate * 1 * (16 / 8)))
    by (reflexivity || (change (16 / 8) with 2; lia)).
  rewrite (header_u16 32 (1 * (16 / 8))) by (reflexivity || (vm_compute; done)).
  rewrite drop_app_length' by reflexivity.
  rewrite length_payload.
  repeat split; try reflexivity. lia.
Qed.

Lemma header_fields_consistent_witness :
  let audioData := [1%float; (-1)%float; 0.5%float] in
  (0 ≤ 44100 < 2 ^ 31 ∧ 44 + 2 * Z.of_nat (length audioData) < 2 ^ 32)
  ∧ ∃ bytes,
      encodePcmContainer 44100 audioData = Some bytes
      ∧ let u32 off := DataView.getUintLE 4 off bytes in
        let u16 off := DataView.getUintLE 2 off bytes in
        u32 40%nat = Z.of_nat (length (drop 44 bytes))
        ∧ u32 4%nat = 36 + u32 40%nat
        ∧ u32 16%nat = 16
        ∧ u16 20%nat = 1
        ∧ u16 22%nat = 1
        ∧ u32 24%nat = 44100
        ∧ u16 34%nat = 16
        ∧ u32 28%nat = u32 24%nat * u16 22%nat * (u16 34%nat / 8)
        ∧ u16 32%nat = u16 22%nat * (u16 34%nat / 8).
Proof.
  split; [cbn [length]; lia|].
  apply (header_fields_consistent 44100); [lia | reflexivity].
Defined.

Lemma audioBufferToWav_mono (rate : Z) (channel : list float) :
  audioBufferToWav {| sampleRate := rate; channels := [channel] |}
  = Some {| blob_data :=
              wav_header rate (Z.of_nat (length channel) * (16 / 8))
              ++ payload channel;
            blob_type := "audio/wav" |}.
Proof.
  unfold audioBufferToWav, downmixToMono, numberOfChannels, getChannelData.
  cbn [channels length sampleRate].
  rewrite decide_True by reflexivity.
  cbn [lookup list_lookup mbind option_bind].
  by rewrite encodePcmContainer_eq.
Qed.

(** C9. Re-encoding one second of silence at 44100 Hz mono (44100 samples
    of amplitude 0.0) gives a container of exactly 44 + 88200 bytes whose
    payload bytes, those after the 44-byte header, are all zero. *)
Theorem silence_one_second :
  let silence :=
    {| sampleRate := 44100;
       channels := [replicate (Z.to_nat 44100) 0%float] |} in
  ∃ wav,
    audioBufferToWav silence = Some wav
    ∧ blob_type wav = "audio/wav"
    ∧ Z.of_nat (length (blob_data wav)) = 44 + 88200
    ∧ Z.of_nat (length (drop 44 (blob_data wav))) = 88200
    ∧ Forall (λ b, b = Byte.x00) (drop 44 (blob_data wav)).
Proof.
  cbv zeta.
  assert (Hn : Z.of_nat (Z.to_nat 44100) = 44100) by lia.
  revert Hn. generalize (Z.to_nat 44100). intros n Hn.
  rewrite audioBufferToWav_mono.
  eexists. split; [reflexivity|]. cbn [blob_data blob_type].
  split; [reflexivity|].
  rewrite drop_app_length' by reflexivity.
  rewrite length_app, length_wav_header, payload_silence, length_replicate.
  split; [lia|]. split; [lia|]. by apply Forall_replicate.
Qed.

(** ** Mixing to mono (lines 96-108) *)

Lemma mix_spec (left right : list float) (i : nat) (l r : float) :
  left !! i = Some l → right !! i = Some r →
  mix left right !! i = Some (JS.fround ((l + r) / 2)%float).
Proof.
  intros Hl Hr. rewrite mix_lookup by (by eapply lookup_lt_Some).
  unfold mixed, typed_get. by rewrite Hl, Hr.
Qed.

Lemma downmixToMono_two_or_more (rate : Z) (c0 c1 : list float)
    (more : list (list float)) :
  downmixToMono {| sampleRate := rate; channels := c0 :: c1 :: more |}
  = Some (mix c0 c1).
Proof.
  unfold downmixToMono, numberOfChannels, getChannelData.
  cbn [channels length]. by rewrite decide_False by lia.
Qed.

(** C5, as the code has it.  For one channel the mono data is that channel
    unchanged.  For a stereo pair of equal length it has the same length,
    and its element at each index is [(left[i] + right[i]) / 2] rounded to
    the nearest single-precision number, which is what the
    [Float32Array] it is stored in keeps. *)
Theorem downmix_is_single_precision_mean (rate : Z)
    (left right : list float) :
  length left = length right →
  downmixToMono {| sampleRate := rate; channels := [left] |} = Some left
  ∧ ∃ mono,
      downmixToMono {| sampleRate := rate; channels := [left; right] |}
      = Some mono
      ∧ length mono = length left
      ∧ ∀ i, (i < length left)%nat →
          ∃ l r, left !! i = Some l ∧ right !! i = Some r
                 ∧ mono !! i = Some (JS.fround ((l + r) / 2)%float).
Proof.
  intros Hlen. split.
  - unfold downmixToMono, numberOfChannels, getChannelData.
    cbn [channels length]. by rewrite decide_True by reflexivity.
  - exists (mix left right). rewrite downmixToMono_two_or_more.
    split; [done|]. split; [apply length_mix|].
    intros i Hi.
    destruct (lookup_lt_is_Some_2 left i Hi) as [l Hl].
    destruct (lookup_lt_is_Some_2 right i) as [r Hr]; [lia|].
    exists l, r. split; [done|]. split; [done|]. by apply mix_spec.
Qed.

Lemma downmix_is_single_precision_mean_witness :
  let left := [0.25%float; (-1)%float] in
  let right := [0.5%float; 1%float] in
  length left = length right
  ∧ downmixToMono {| sampleRate := 48000; channels := [left] |} = Some left
  ∧ ∃ mono,
      downmixToMono {| sampleRate := 48000; channels := [left; right] |}
      = Some mono
      ∧ length mono = length left
      ∧ ∀ i, (i < length left)%nat →
          ∃ l r, left !! i = Some l ∧ right !! i = Some r
                 ∧ mono !! i = Some (JS.fround ((l + r) / 2)%float).
Proof.
  split; [reflexivity|].
  apply (downmix_is_single_precision_mean 48000
           [0.25%float; (-1)%float] [0.5%float; 1%float]).
  reflexivity.
Defined.

(** C5 as stated fails: for the stereo pair [0.5] and
    [0.500000059604644775390625] (both single-precision numbers) the mean
    is 0.5000000298023223876953125, and the mono data holds 0.5. *)
Lemma downmix_exact_mean_counterexample :
  let left := [0.5%float] in
  let right := [0x1.000002p-1%float] in
  length left = length right
  ∧ JS.fround 0.5 = 0.5%float
  ∧ JS.fround 0x1.000002p-1 = 0x1.000002p-1%float
  ∧ downmixToMono {| sampleRate := 44100; channels := [left; right] |}
    = Some [0.5%float]
  ∧ ((0.5 + 0x1.000002p-1) / 2)%float = 0x1.000001p-1%float
  ∧ [0.5%float] !! 0%nat ≠ Some ((0.5 + 0x1.000002p-1) / 2)%float.
Proof.
  cbv zeta. split; [reflexivity|]. do 4 (split; [vm_compute; reflexivity|]).
  intros H.
  apply (f_equal (λ o, from_option (λ x, x =? 0.5)%float false o)) in H.
  vm_compute in H. discriminate H.
Qed.

(** C10, as the code has it.  A buffer with more than two channels is not
    rejected: a container is produced, the mono data is as long as
    channel 0, its element at each index is [(c0[i] + c1[i]) / 2] of the
    first two channels rounded to single precision, and the further
    channels are ignored (the mono data is that of the first two channels
    alone). *)
Theorem downmix_ignores_further_channels (audioBuffer : AudioBuffer) :
  (2 < numberOfChannels audioBuffer)%nat →
  ∃ c0 c1 mono,
    channels audioBuffer !! 0%nat = Some c0
    ∧ channels audioBuffer !! 1%nat = Some c1
    ∧ downmixToMono audioBuffer = Some mono
    ∧ is_Some (audioBufferToWav audioBuffer)
    ∧ length mono = length c0
    ∧ (∀ i l r, c0 !! i = Some l → c1 !! i = Some r →
         mono !! i = Some (JS.fround ((l + r) / 2)%float))
    ∧ downmixToMono audioBuffer
      = downmixToMono {| sampleRate := sampleRate audioBuffer;
                         channels := [c0; c1] |}.
Proof.
  destruct audioBuffer as [rate chans]. unfold numberOfChannels.
  cbn [channels sampleRate]. intros Hn.
  destruct chans as [|c0 [|c1 [|c2 more]]]; cbn [length] in Hn; try lia.
  exists c0, c1, (mix c0 c1).
  rewrite !downmixToMono_two_or_more.
  repeat split; try reflexivity.
  - unfold audioBufferToWav. rewrite downmixToMono_two_or_more.
    cbn [mbind option_bind sampleRate]. rewrite encodePcmContainer_eq.
    by eexists.
  - apply length_mix.
  - intros i l r. apply mix_spec.
Qed.

Lemma downmix_ignores_further_channels_witness :
  let audioBuffer :=
    {| sampleRate := 48000;
       channels := [[0.25%float]; [0.5%float]; [1%float]] |} in
  (2 < numberOfChannels audioBuffer)%nat
  ∧ ∃ c0 c1 mono,
      channels audioBuffer !! 0%nat = Some c0
      ∧ channels audioBuffer !! 1%nat = Some c1
      ∧ downmixToMono audioBuffer = Some mono
      ∧ is_Some (audioBufferToWav audioBuffer)
      ∧ length mono = length c0
      ∧ (∀ i l r, c0 !! i = Some l → c1 !! i = Some r →
           mono !! i = Some (JS.fround ((l + r) / 2)%float))
      ∧ downmixToMono audioBuffer
        = downmixToMono {| sampleRate := sampleRate audioBuffer;
                           channels := [c0; c1] |}.
Proof.
  split; [cbv; lia|].
  apply (downmix_ignores_further_channels
           {| sampleRate := 48000;
              channels := [[0.25%float]; [0.5%float]; [1%float]] |}).
  cbv. lia.
Defined.

(** C10 as stated fails in the same way as C5: for the three channels
    [0.5], [0.500000059604644775390625] and [1.0] the mean of the first
    two samples is 0.5000000298023223876953125, and the mono data holds
    0.5. *)
Lemma downmix_three_channels_counterexample :
  let audioBuffer :=
    {| sampleRate := 44100;
       channels := [[0.5%float]; [0x1.000002p-1%float]; [1%float]] |} in
  (2 < numberOfChannels audioBuffer)%nat
  ∧ JS.fround 0x1.000002p-1 = 0x1.000002p-1%float
  ∧ downmixToMono audioBuffer = Some [0.5%float]
  ∧ is_Some (audioBufferToWav audioBuffer)
  ∧ ((0.5 + 0x1.000002p-1) / 2)%float = 0x1.000001p-1%float
  ∧ [0.5%float] !! 0%nat ≠ Some ((0.5 + 0x1.000002p-1) / 2)%float.
Proof.
  cbv zeta. split; [cbv; lia|]. do 2 (split; [vm_compute; reflexivity|]).
  split; [vm_compute; by eexists|]. split; [vm_compute; reflexivity|].
  intros H.
  apply (f_equal (λ o, from_option (λ x, x =? 0.5)%float false o)) in H.
  vm_compute in H. discriminate H.
Qed.

(** ** The recorder *)

Section RecorderFacts.

Variable decodeAudioData : list byte → option AudioBuffer.
Variable createObjectURL : Blob → string.

Lemma onstop_unconverted (mimeType : string) (chunks : list (list byte)) :
  converted mimeType = false →
  blob (onstop decodeAudioData createObjectURL mimeType chunks).1
  = {| blob_data := concat chunks; blob_type := mimeType |}.
Proof. unfold onstop, converted. by intros ->. Qed.

Lemma onstop_converted (mimeType : string) (chunks : list (list byte))
    (wav : Blob) :
  converted mimeType = true →
  convertToWav decodeAudioData
    {| blob_data := concat chunks; blob_type := mimeType |} = Some wav →
  blob (onstop decodeAudioData createObjectURL mimeType chunks).1 = wav.
Proof. unfold onstop, converted. by intros -> ->. Qed.

Lemma audioBufferToWav_total (audioBuffer : AudioBuffer) :
  (1 ≤ numberOfChannels audioBuffer)%nat →
  ∃ mono,
    downmixToMono audioBuffer = Some mono
    ∧ audioBufferToWav audioBuffer
      = Some {| blob_data :=
                  wav_header (sampleRate audioBuffer)
                    (Z.of_nat (length mono) * (16 / 8)) ++ payload mono;
                blob_type := "audio/wav" |}.
Proof.
  destruct audioBuffer as [rate [|c0 [|c1 more]]];
    unfold numberOfChannels; cbn [channels length]; intros Hn; [lia| |].
  - exists c0. rewrite audioBufferToWav_mono. split; [|done].
    unfold downmixToMono, getChannelData, numberOfChannels.
    cbn [channels length]. by rewrite decide_True by reflexivity.
  - exists (mix c0 c1). unfold audioBufferToWav.
    rewrite downmixToMono_two_or_more. split; [done|].
    cbn [mbind option_bind sampleRate]. by rewrite encodePcmContainer_eq.
Qed.

End RecorderFacts.

(** C1, as the code has it.  [onstop] hands the captured blob on unchanged
    when its type is the uncompressed [audio/wav]; when the type contains
    [webm] or [ogg] and decoding succeeds it hands on an [audio/wav] blob
    made by mixing the decoded buffer to mono and writing the container
    whose payload is the quantised samples in order.  In both cases that
    blob is the [file] field of the upload. *)
Theorem onstop_reencodes_webm_and_ogg
    (decodeAudioData : list byte → option AudioBuffer)
    (createObjectURL : Blob → string)
    (mimeType : string) (chunks : list (list byte)) :
  let captured := {| blob_data := concat chunks; blob_type := mimeType |} in
  let audioData := (onstop decodeAudioData createObjectURL mimeType chunks).1 in
  (mimeType = wav_type → blob audioData = captured)
  ∧ (JS.includes "webm" mimeType || JS.includes "ogg" mimeType = true →
     ∀ audioBuffer,
       decodeAudioData (concat chunks) = Some audioBuffer →
       (1 ≤ numberOfChannels audioBuffer)%nat →
       ∃ mono bytes,
         downmixToMono audioBuffer = Some mono
         ∧ encodePcmContainer (sampleRate audioBuffer) mono = Some bytes
         ∧ drop 44 bytes = (x ← mono; le_split 2 (quantize x))
         ∧ blob audioData = {| blob_data := bytes; blob_type := "audio/wav" |})
  ∧ handleAnalyze_form (Some audioData)
    = inl ("file", blob audioData, "recording.wav").
Proof.
  cbv zeta. split; [|split; [|reflexivity]].
  - intros ->. by apply onstop_unconverted.
  - intros Hconv audioBuffer Hdecode Hchan.
    destruct (audioBufferToWav_total audioBuffer Hchan) as (mono & Hmono & Hwav).
    exists mono. eexists. split; [done|].
    split; [apply encodePcmContainer_eq|].
    split; [by rewrite drop_app_length' by reflexivity|].
    apply onstop_converted; [done|].
    unfold convertToWav. cbn [blob_data]. rewrite Hdecode. exact Hwav.
Qed.

Lemma onstop_reencodes_webm_and_ogg_witness :
  let audioBuffer :=
    {| sampleRate := 8000; channels := [[1%float; (-1)%float]] |} in
  let decodeAudioData := λ _ : list byte, Some audioBuffer in
  let createObjectURL := λ _ : Blob, "blob:recording" in
  let chunks := [[Byte.x1a; Byte.x45]; [Byte.xdf; Byte.xa3]] in
  blob (onstop decodeAudioData createObjectURL wav_type chunks).1
  = {| blob_data := concat chunks; blob_type := wav_type |}
  ∧ ∃ mono bytes,
      downmixToMono audioBuffer = Some mono
      ∧ encodePcmContainer (sampleRate audioBuffer) mono = Some bytes
      ∧ drop 44 bytes = (x ← mono; le_split 2 (quantize x))
      ∧ blob (onstop decodeAudioData createObjectURL "audio/webm" chunks).1
        = {| blob_data := bytes; blob_type := "audio/wav" |}.
Proof.
  cbv zeta. split.
  - apply (onstop_reencodes_webm_and_ogg
             (λ _, Some {| sampleRate := 8000;
                           channels := [[1%float; (-1)%float]] |})
             (λ _, "blob:recording") wav_type
             [[Byte.x1a; Byte.x45]; [Byte.xdf; Byte.xa3]]).
    reflexivity.
  - apply (onstop_reencodes_webm_and_ogg
             (λ _, Some {| sampleRate := 8000;
                           channels := [[1%float; (-1)%float]] |})
             (λ _, "blob:recording") "audio/webm"
             [[Byte.x1a; Byte.x45]; [Byte.xdf; Byte.xa3]]);
      [reflexivity | reflexivity | cbv; lia].
Defined.

(** C1 as stated fails on [audio/mp4], a type [startRecording] picks on a
    platform that records nothing else: it is not the uncompressed type,
    the decoder would accept the recording, and [onstop] hands on the
    captured bytes, not their re-encoding. *)
Lemma onstop_mp4_counterexample :
  let decodeAudioData := λ _ : list byte,
    Some {| sampleRate := 8000; channels := [[0%float]] |} in
  let createObjectURL := λ _ : Blob, "blob:recording" in
  let captured := {| blob_data := [Byte.x01]; blob_type := "audio/mp4" |} in
  (selectCaptureFormat (String.eqb "audio/mp4")).1 = "audio/mp4"
  ∧ "audio/mp4" ≠ wav_type
  ∧ blob (onstop decodeAudioData createObjectURL "audio/mp4" [[Byte.x01]]).1
    = captured
  ∧ ∃ wav, convertToWav decodeAudioData captured = Some wav
           ∧ blob_type wav = "audio/wav"
           ∧ wav ≠ captured.
Proof.
  cbv zeta. split; [reflexivity|]. split; [discriminate|].
  split; [reflexivity|]. eexists. split; [vm_compute; reflexivity|].
  split; [reflexivity|]. discriminate.
Qed.

(** C2. When the recording has a type that [onstop] converts and the
    decoding fails, [onstop] does not fail: it reports the failure on the
    error console, keeps the captured blob unchanged, and that blob is
    the [file] field of the upload. *)
Theorem onstop_decode_failure_keeps_capture
    (decodeAudioData : list byte → option AudioBuffer)
    (createObjectURL : Blob → string)
    (mimeType : string) (chunks : list (list byte)) :
  JS.includes "webm" mimeType || JS.includes "ogg" mimeType = true →
  decodeAudioData (concat chunks) = None →
  let captured := {| blob_data := concat chunks; blob_type := mimeType |} in
  let result := onstop decodeAudioData createObjectURL mimeType chunks in
  blob result.1 = captured
  ∧ ConsoleError "Conversion failed:" ∈ result.2
  ∧ handleAnalyze_form (Some result.1) = inl ("file", captured, "recording.wav").
Proof.
  intros Hconv Hdecode. cbv zeta. unfold onstop, convertToWav.
  cbn [blob_data]. rewrite Hconv, Hdecode. cbn [mbind option_bind fst snd].
  split; [reflexivity|]. split; [|reflexivity].
  apply list_elem_of_In. right; left. reflexivity.
Qed.

Lemma onstop_decode_failure_keeps_capture_witness :
  let decodeAudioData := λ _ : list byte, @None AudioBuffer in
  let createObjectURL := λ _ : Blob, "blob:recording" in
  let mimeType := "audio/webm;codecs=opus" in
  let chunks := [[Byte.x1a; Byte.x45]; [Byte.xdf; Byte.xa3]] in
  (JS.includes "webm" mimeType || JS.includes "ogg" mimeType = true
   ∧ decodeAudioData (concat chunks) = None)
  ∧ let captured := {| blob_data := concat chunks; blob_type := mimeType |} in
    let result := onstop decodeAudioData createObjectURL mimeType chunks in
    blob result.1 = captured
    ∧ ConsoleError "Conversion failed:" ∈ result.2
    ∧ handleAnalyze_form (Some result.1)
      = inl ("file", captured, "recording.wav").
Proof.
  split; [split; reflexivity|].
  apply (onstop_decode_failure_keeps_capture
           (λ _, None) (λ _, "blob:recording") "audio/webm;codecs=opus"
           [[Byte.x1a; Byte.x45]; [Byte.xdf; Byte.xa3]]);
    reflexivity.
Defined.

(** A platform that records [audio/mp4] only, and one that records
    nothing on the list. *)
Example selectCaptureFormat_mp4_only :
  selectCaptureFormat (String.eqb "audio/mp4")
  = ("audio/mp4",
     [ ConsoleLog "WAV not supported, checking alternatives...";
       ConsoleLog "Using format:" ])
  ∧ selectCaptureFormat (String.eqb "audio/wav") = ("audio/wav", []).
Proof. split; reflexivity. Qed.

(** ** Further properties of [audioBufferToWav] *)

Lemma quantize_range (x : float) : - 2 ^ 15 ≤ quantize x < 2 ^ 15.
Proof.
  unfold quantize, JS.ToInt16. cbv zeta.
  pose proof (Z.mod_pos_bound (JS.truncate (scale (clamp x))) (2 ^ 16)
                eq_refl) as Hmod.
  destruct (Z.leb_spec (2 ^ 15) (JS.truncate (scale (clamp x)) mod 2 ^ 16));
    lia.
Qed.

Lemma int16_read_back (q : Z) :
  - 2 ^ 15 ≤ q < 2 ^ 15 →
  (let u := le_combine (le_split 2 q) in
   if (2 ^ 15 <=? u)%Z then (u - 2 ^ 16)%Z else u) = q.
Proof.
  intros Hq. cbv zeta. rewrite le_combine_split.
  change (2 ^ (Z.of_nat 2 * 8)) with (2 ^ 16).
  destruct (Z_lt_dec q 0) as [Hneg|Hpos].
  - replace (q mod 2 ^ 16) with (q + 2 ^ 16).
    + destruct (Z.leb_spec (2 ^ 15) (q + 2 ^ 16)); lia.
    + symmetry. rewrite <- (Z.mod_add q 1 (2 ^ 16)) by lia.
      apply Z.mod_small. lia.
  - rewrite Z.mod_small by lia.
    destruct (Z.leb_spec (2 ^ 15) q); lia.
Qed.

Lemma payload_app (a b : list float) :
  payload (a ++ b) = payload a ++ payload b.
Proof. unfold payload. apply bind_app. Qed.

Lemma payload_at (audioData : list float) (i : nat) (x : float) :
  audioData !! i = Some x →
  payload audioData
  = payload (take i audioData) ++ le_split 2 (quantize x)
    ++ payload (drop (S i) audioData).
Proof.
  intros Hx. rewrite <- (take_drop_middle audioData i x Hx) at 1.
  rewrite payload_app. by f_equal.
Qed.

Lemma audioBufferToWav_some_iff (audioBuffer : AudioBuffer) :
  is_Some (audioBufferToWav audioBuffer)
  ↔ (1 ≤ numberOfChannels audioBuffer)%nat.
Proof.
  split.
  - intros [wav Hwav].
    destruct audioBuffer as [rate [|c0 more]];
      [discriminate Hwav | unfold numberOfChannels; simpl; lia].
  - intros Hn. destruct (audioBufferToWav_total audioBuffer Hn)
      as (mono & _ & ->). by eexists.
Qed.

Lemma audioBufferToWav_type (audioBuffer : AudioBuffer) (wav : Blob) :
  audioBufferToWav audioBuffer = Some wav → blob_type wav = "audio/wav".
Proof.
  intros Hwav.
  assert (Hn : (1 ≤ numberOfChannels audioBuffer)%nat)
    by (by apply audioBufferToWav_some_iff; eexists).
  destruct (audioBufferToWav_total audioBuffer Hn) as (mono & _ & Heq).
  rewrite Heq in Hwav. by injection Hwav as <-.
Qed.

(** X1. [audioBufferToWav] gives a blob exactly for the buffers that have
    at least one channel (with none, [getChannelData(0)] throws), and the
    blob then has type [audio/wav]. *)
Theorem audioBufferToWav_needs_a_channel (audioBuffer : AudioBuffer) :
  (is_Some (audioBufferToWav audioBuffer)
   ↔ (1 ≤ numberOfChannels audioBuffer)%nat)
  ∧ ∀ wav, audioBufferToWav audioBuffer = Some wav →
           blob_type wav = "audio/wav".
Proof.
  split; [apply audioBufferToWav_some_iff|].
  intros wav. apply audioBufferToWav_type.
Qed.

(** X2. Every sample can be read back from the container: the two bytes
    at offset [44 + 2 * i], read as a little-endian signed 16-bit integer,
    are the quantised sample [i]. *)
Theorem payload_sample_read_back (rate : Z) (audioData : list float)
    (i : nat) (x : float) :
  audioData !! i = Some x →
  ∃ bytes,
    encodePcmContainer rate audioData = Some bytes
    ∧ getInt16LE (44 + 2 * i) bytes = quantize x.
Proof.
  intros Hx. eexists. split; [apply encodePcmContainer_eq|].
  unfold getInt16LE. rewrite (payload_at audioData i x Hx).
  rewrite (assoc_L (++) (wav_header _ _)).
  rewrite getUintLE_app.
  - apply int16_read_back, quantize_range.
  - rewrite length_app, length_wav_header, length_payload, length_take.
    apply lookup_lt_Some in Hx. lia.
  - by rewrite length_le_split.
Qed.

Lemma payload_sample_read_back_witness :
  let audioData := [1%float; (-1)%float; 0.5%float] in
  audioData !! 1%nat = Some (-1)%float
  ∧ ∃ bytes,
      encodePcmContainer 44100 audioData = Some bytes
      ∧ getInt16LE (44 + 2 * 1) bytes = quantize (-1).
Proof.
  split; [reflexivity|].
  apply (payload_sample_read_back 44100
           [1%float; (-1)%float; 0.5%float] 1 (-1)%float).
  reflexivity.
Defined.

(** X3. Every container starts with the tag [RIFF], carries [WAVE] at
    offset 8, [fmt ] at offset 12 and [data] at offset 36, whatever the
    sample rate and the samples. *)
Theorem container_tags (rate : Z) (audioData : list float) :
  ∃ bytes,
    encodePcmContainer rate audioData = Some bytes
    ∧ take 4 bytes = [Byte.x52; Byte.x49; Byte.x46; Byte.x46]
    ∧ take 4 (drop 8 bytes) = [Byte.x57; Byte.x41; Byte.x56; Byte.x45]
    ∧ take 4 (drop 12 bytes) = [Byte.x66; Byte.x6d; Byte.x74; Byte.x20]
    ∧ take 4 (drop 36 bytes) = [Byte.x64; Byte.x61; Byte.x74; Byte.x61].
Proof.
  eexists. split; [apply encodePcmContainer_eq|].
  repeat split; reflexivity.
Qed.

(** X4. For every buffer with a channel 0 the container holds one 16-bit
    sample per frame of channel 0: it is [44 + 2 * frames] bytes long,
    however many channels follow and however long they are. *)
Theorem wav_length_from_channel_0 (audioBuffer : AudioBuffer)
    (c0 : list float) :
  channels audioBuffer !! 0%nat = Some c0 →
  ∃ wav,
    audioBufferToWav audioBuffer = Some wav
    ∧ length (blob_data wav) = (44 + 2 * length c0)%nat.
Proof.
  destruct audioBuffer as [rate [|ch0 [|ch1 more]]]; cbn [channels];
    intros Hc0; [discriminate Hc0| |]; injection Hc0 as ->.
  - rewrite audioBufferToWav_mono. eexists. split; [reflexivity|].
    cbn [blob_data]. by rewrite length_app, length_wav_header, length_payload.
  - unfold audioBufferToWav. rewrite downmixToMono_two_or_more.
    cbn [mbind option_bind sampleRate]. rewrite encodePcmContainer_eq.
    eexists. split; [reflexivity|]. cbn [blob_data].
    by rewrite length_app, length_wav_header, length_payload, length_mix.
Qed.

Lemma wav_length_from_channel_0_witness :
  let audioBuffer :=
    {| sampleRate := 48000;
       channels := [[0.25%float; 1%float]; [0.5%float]; []] |} in
  channels audioBuffer !! 0%nat = Some [0.25%float; 1%float]
  ∧ ∃ wav,
      audioBufferToWav audioBuffer = Some wav
      ∧ length (blob_data wav) = (44 + 2 * length [0.25%float; 1%float])%nat.
Proof.
  split; [reflexivity|].
  apply (wav_length_from_channel_0
           {| sampleRate := 48000;
              channels := [[0.25%float; 1%float]; [0.5%float]; []] |}).
  reflexivity.
Defined.

Lemma mix_silence (n : nat) :
  mix (replicate n 0%float) (replicate n 0%float) = replicate n 0%float.
Proof.
  apply list_eq. intros i. destruct (decide (i < n)%nat) as [Hi|Hi].
  - rewrite mix_lookup by (by rewrite length_replicate).
    rewrite (lookup_replicate_2 n 0%float i Hi).
    unfold mixed, typed_get.
    by rewrite (lookup_replicate_2 n 0%float i Hi).
  - rewrite !lookup_ge_None_2;
      rewrite ?length_mix, ?length_replicate; [done|lia|lia].
Qed.

(** X5. A silent buffer of any length, any sample rate and any number of
    channels (at least one) gives a container whose payload is all zero
    bytes, two for each frame. *)
Theorem silent_buffer_zero_payload (rate : Z) (frames more : nat) :
  ∃ wav,
    audioBufferToWav
      {| sampleRate := rate;
         channels := replicate (S more) (replicate frames 0%float) |}
    = Some wav
    ∧ drop 44 (blob_data wav) = replicate (2 * frames) Byte.x00.
Proof.
  destruct more as [|more]; cbn [replicate].
  - rewrite audioBufferToWav_mono. eexists. split; [reflexivity|].
    cbn [blob_data]. rewrite drop_app_length' by reflexivity.
    apply payload_silence.
  - unfold audioBufferToWav. rewrite downmixToMono_two_or_more.
    cbn [mbind option_bind sampleRate]. rewrite encodePcmContainer_eq.
    eexists. split; [reflexivity|]. cbn [blob_data].
    rewrite drop_app_length' by reflexivity.
    rewrite mix_silence. apply payload_silence.
Qed.

Lemma ltb_leb (x y : float) :
  (x <? y)%float = true → (x <=? y)%float = true.
Proof.
  rewrite FloatAxioms.ltb_spec, FloatAxioms.leb_spec. unfold SFltb, SFleb.
  by destruct (SFcompare (Prim2SF x) (Prim2SF y)) as [[]|].
Qed.

Lemma clamp_eq (x : float) :
  clamp x
  = if is_nan x then nan
    else if (x <? 1)%float then (if (-1 <? x)%float then x else (-1)%float)
    else 1%float.
Proof.
  unfold clamp, JS.Math_min.
  change (is_nan 1) with false. change (JS.is_poszero 1) with false.
  cbn [orb andb].
  destruct (is_nan x) eqn:Hnan; [reflexivity|].
  destruct (x <? 1)%float; [|reflexivity].
  unfold JS.Math_max. rewrite Hnan.
  change (is_nan (-1)) with false. change (JS.is_negzero (-1)) with false.
  reflexivity.
Qed.

(** X6. The clamped sample of line 139 is never outside [-1, 1]: it is
    NaN (for a NaN sample only) or lies between -1 and 1. *)
Theorem clamp_within_bounds (x : float) :
  (is_nan x = true ∧ is_nan (clamp x) = true)
  ∨ ((-1 <=? clamp x)%float = true ∧ (clamp x <=? 1)%float = true).
Proof.
  rewrite !clamp_eq.
  destruct (is_nan x) eqn:Hnan; [by left|]. right.
  destruct (x <? 1)%float eqn:Hlt; [|by split].
  destruct (-1 <? x)%float eqn:Hgt; [|by split].
  split; by apply ltb_leb.
Qed.

(** ** Further properties of the recorder *)

(** Membership in a list that is written out. *)
Ltac in_list :=
  rewrite ?elem_of_app, ?elem_of_cons, ?elem_of_nil, ?list_elem_of_fmap.

Lemma selectCaptureFormat_reports_logs (isTypeSupported : string → bool)
    (e : event) :
  e ∈ (selectCaptureFormat isTypeSupported).2 → ∃ msg, e = ConsoleLog msg.
Proof.
  unfold selectCaptureFormat.
  destruct (isTypeSupported wav_type); cbn [negb snd]; in_list;
    intros H; [done|]. destruct H as [->|[->|[]]]; eauto.
Qed.

Lemma selectCaptureFormat_cases
    (isTypeSupported : string → bool) :
  let mimeType := (selectCaptureFormat isTypeSupported).1 in
  mimeType ∈ candidates
  ∧ ((∃ fmt, fmt ∈ candidates ∧ isTypeSupported fmt = true) →
     isTypeSupported mimeType = true).
Proof.
  cbv zeta. unfold selectCaptureFormat, candidates, formats, wav_type.
  destruct (isTypeSupported "audio/wav") eqn:H0; cbn [negb fst].
  { split; [in_list; tauto | done]. }
  cbn [List.find].
  destruct (isTypeSupported "audio/webm;codecs=pcm") eqn:H1;
    [cbn [or_else]; split; [in_list; tauto | done]|].
  destruct (isTypeSupported "audio/webm;codecs=opus") eqn:H2;
    [cbn [or_else]; split; [in_list; tauto | done]|].
  destruct (isTypeSupported "audio/webm") eqn:H3;
    [cbn [or_else]; split; [in_list; tauto | done]|].
  destruct (isTypeSupported "audio/ogg;codecs=opus") eqn:H4;
    [cbn [or_else]; split; [in_list; tauto | done]|].
  destruct (isTypeSupported "audio/mp4") eqn:H5;
    [cbn [or_else]; split; [in_list; tauto | done]|].
  cbn [or_else]. split; [in_list; tauto|].
  intros (fmt & Hin & Hfmt). revert Hin. in_list.
  intros [->|[->|[->|[->|[->|[->|[]]]]]]]; congruence.
Qed.

(** X7. The type the recorder is made with is always one of the six
    candidates, and it is a supported one whenever the platform supports
    any of them (the [audio/webm] default is only ever used
    unsupported when nothing is supported). *)
Theorem selected_type_is_a_supported_candidate
    (isTypeSupported : string → bool) :
  let mimeType := (selectCaptureFormat isTypeSupported).1 in
  mimeType ∈ candidates
  ∧ ((∃ fmt, fmt ∈ candidates ∧ isTypeSupported fmt = true) →
     isTypeSupported mimeType = true).
Proof. apply selectCaptureFormat_cases. Qed.

Lemma selected_type_is_a_supported_candidate_witness :
  String.eqb "audio/ogg;codecs=opus"
    (selectCaptureFormat (String.eqb "audio/ogg;codecs=opus")).1 = true.
Proof.
  apply (selected_type_is_a_supported_candidate
           (String.eqb "audio/ogg;codecs=opus")).
  exists "audio/ogg;codecs=opus". split; [|reflexivity].
  unfold candidates, formats. in_list. tauto.
Defined.

Lemma chunks_invariant (delivered : list (option (list byte)))
    (chunks : list (list byte)) :
  concat (foldl ondataavailable chunks delivered)
  = concat chunks ++ concat (default [] <$> delivered)
  ∧ (Forall (λ c, c ≠ []) chunks →
     Forall (λ c, c ≠ []) (foldl ondataavailable chunks delivered)).
Proof.
  revert chunks. induction delivered as [|e rest IH]; intros chunks.
  - cbn. by rewrite app_nil_r.
  - cbn [foldl fmap list_fmap concat].
    destruct (IH (ondataavailable chunks e)) as [Hcat Hne].
    rewrite Hcat. clear Hcat. split.
    + rewrite (assoc_L (++)). f_equal.
      destruct e as [d|]; cbn [ondataavailable default];
        [|by rewrite app_nil_r].
      destruct (decide (0 < length d)%nat) as [Hd|Hd].
      * rewrite concat_app. cbn. by rewrite app_nil_r.
      * destruct d; [by rewrite app_nil_r | cbn in Hd; lia].
    + intros Hchunks. apply Hne.
      destruct e as [d|]; cbn [ondataavailable]; [|done].
      destruct (decide (0 < length d)%nat) as [Hd|Hd]; [|done].
      apply Forall_app. split; [done|].
      apply Forall_singleton. intros ->. cbn in Hd. lia.
Qed.

(** X8. The chunks gathered by [ondataavailable] lose nothing: whatever
    events are delivered, some without data or with empty data, no
    gathered chunk is empty and the chunks put together are all the
    delivered data in order; so for a type that [onstop] does not convert
    the blob handed on holds exactly the delivered bytes. *)
Theorem chunks_hold_all_delivered_data
    (decodeAudioData : list byte → option AudioBuffer)
    (createObjectURL : Blob → string) (mimeType : string)
    (delivered : list (option (list byte))) :
  let chunks := foldl ondataavailable [] delivered in
  Forall (λ c, c ≠ []) chunks
  ∧ concat chunks = concat (default [] <$> delivered)
  ∧ (JS.includes "webm" mimeType || JS.includes "ogg" mimeType = false →
     blob_data
       (blob (session_end decodeAudioData createObjectURL mimeType
                delivered).1)
     = concat (default [] <$> delivered)).
Proof.
  cbv zeta. destruct (chunks_invariant delivered []) as [Hcat Hne].
  split; [by apply Hne|]. split; [done|].
  intros Hconv. unfold session_end.
  rewrite (onstop_unconverted _ _ _ _ Hconv). cbn [blob_data]. done.
Qed.

Lemma chunks_hold_all_delivered_data_witness :
  let delivered :=
    [ Some [Byte.x01; Byte.x02]; None; Some []; Some [Byte.x03] ] in
  blob_data
    (blob (session_end (λ _, None) (λ _, "blob:recording") "audio/mp4"
             delivered).1)
  = concat (default [] <$> delivered).
Proof.
  apply (chunks_hold_all_delivered_data (λ _, None) (λ _, "blob:recording")
           "audio/mp4"
           [ Some [Byte.x01; Byte.x02]; None; Some []; Some [Byte.x03] ]).
  reflexivity.
Defined.

(** X9. Selection and [onstop] together: whatever the platform supports,
    when the recording decodes to a buffer with a channel, the blob handed
    on has type [audio/wav] for every type [startRecording] can choose
    except [audio/mp4], for which it is the captured blob itself. *)
Theorem chosen_type_ends_as_wav_unless_mp4
    (isTypeSupported : string → bool)
    (decodeAudioData : list byte → option AudioBuffer)
    (createObjectURL : Blob → string) (chunks : list (list byte))
    (audioBuffer : AudioBuffer) :
  decodeAudioData (concat chunks) = Some audioBuffer →
  (1 ≤ numberOfChannels audioBuffer)%nat →
  let mimeType := (selectCaptureFormat isTypeSupported).1 in
  let handed := blob (onstop decodeAudioData createObjectURL mimeType chunks).1 in
  (mimeType ≠ "audio/mp4" → blob_type handed = "audio/wav")
  ∧ (mimeType = "audio/mp4" →
     handed = {| blob_data := concat chunks; blob_type := "audio/mp4" |}).
Proof.
  intros Hdecode Hchan. cbv zeta.
  destruct (audioBufferToWav_total audioBuffer Hchan) as (mono & _ & Hwav).
  assert (Hconv : ∀ m, converted m = true →
            blob_type (blob (onstop decodeAudioData createObjectURL m
                               chunks).1) = "audio/wav").
  { intros m Hm. erewrite onstop_converted; [|done|].
    2:{ unfold convertToWav. cbn [blob_data]. rewrite Hdecode. exact Hwav. }
    reflexivity. }
  destruct (selectCaptureFormat_cases isTypeSupported) as [Hin _]. revert Hin. unfold candidates, formats, wav_type. in_list.
  intros [->|[->|[->|[->|[->|[->|[]]]]]]]; split; intros Hm;
    try (by apply Hconv); try discriminate Hm; done.
Qed.

Lemma chosen_type_ends_as_wav_unless_mp4_witness :
  let audioBuffer := {| sampleRate := 8000; channels := [[0.5%float]] |} in
  let decodeAudioData := λ _ : list byte, Some audioBuffer in
  let createObjectURL := λ _ : Blob, "blob:recording" in
  let isTypeSupported := String.eqb "audio/ogg;codecs=opus" in
  blob_type
    (blob (onstop decodeAudioData createObjectURL
             (selectCaptureFormat isTypeSupported).1 [[Byte.x4f]]).1)
  = "audio/wav".
Proof.
  apply (chosen_type_ends_as_wav_unless_mp4
           (String.eqb "audio/ogg;codecs=opus")
           (λ _, Some {| sampleRate := 8000; channels := [[0.5%float]] |})
           (λ _, "blob:recording") [[Byte.x4f]]
           {| sampleRate := 8000; channels := [[0.5%float]] |});
    [reflexivity | cbv; lia | discriminate].
Defined.

(** X10. Whatever happens in [onstop], the playback URL is made from the
    very blob that is kept for the upload, that blob has type [audio/wav]
    or is the captured blob, and nothing is shown in an alert. *)
Theorem onstop_url_is_of_kept_blob
    (decodeAudioData : list byte → option AudioBuffer)
    (createObjectURL : Blob → string)
    (mimeType : string) (chunks : list (list byte)) :
  let result := onstop decodeAudioData createObjectURL mimeType chunks in
  url result.1 = createObjectURL (blob result.1)
  ∧ (blob_type (blob result.1) = "audio/wav"
     ∨ blob result.1
       = {| blob_data := concat chunks; blob_type := mimeType |})
  ∧ ∀ e, e ∈ result.2 → ∃ msg, e = ConsoleLog msg ∨ e = ConsoleError msg.
Proof.
  cbv zeta. unfold onstop.
  destruct (JS.includes "webm" mimeType || JS.includes "ogg" mimeType).
  - destruct (convertToWav decodeAudioData _) as [wav|] eqn:Hwav;
      cbn [fst snd blob url].
    + split; [done|]. split.
      * left. unfold convertToWav in Hwav.
        destruct (decodeAudioData _) as [ab|]; [|discriminate Hwav].
        cbn [mbind option_bind] in Hwav.
        by apply (audioBufferToWav_type ab).
      * intros e. in_list. intros [->|[->|[]]]; eauto.
    + split; [done|]. split; [by right|].
      intros e. in_list. intros [->|[->|[]]]; eauto.
  - cbn [fst snd blob url]. split; [done|]. split; [by right|].
    intros e. in_list. intros [->|[]]; eauto.
Qed.

(** X11. [onstop] reports a failed conversion exactly when the type is
    one it converts and either the decoding fails or the decoded buffer
    has no channel; the captured blob is then kept unchanged. *)
Theorem onstop_reports_failure_iff
    (decodeAudioData : list byte → option AudioBuffer)
    (createObjectURL : Blob → string)
    (mimeType : string) (chunks : list (list byte)) :
  let result := onstop decodeAudioData createObjectURL mimeType chunks in
  let failing :=
    JS.includes "webm" mimeType || JS.includes "ogg" mimeType = true
    ∧ (decodeAudioData (concat chunks) = None
       ∨ ∃ audioBuffer,
           decodeAudioData (concat chunks) = Some audioBuffer
           ∧ numberOfChannels audioBuffer = 0%nat) in
  (ConsoleError "Conversion failed:" ∈ result.2 ↔ failing)
  ∧ (failing →
     blob result.1 = {| blob_data := concat chunks; blob_type := mimeType |}).
Proof.
  cbv zeta. unfold onstop, convertToWav. cbn [blob_data].
  destruct (JS.includes "webm" mimeType || JS.includes "ogg" mimeType).
  - destruct (decodeAudioData (concat chunks)) as [ab|] eqn:Hdecode;
      cbn [mbind option_bind].
    + destruct (audioBufferToWav ab) as [wav|] eqn:Hwav; cbn [fst snd blob].
      * assert (Hn : (1 ≤ numberOfChannels ab)%nat)
          by (by apply audioBufferToWav_some_iff; eexists).
        split.
        -- in_list. split; [intros [H|[H|[]]]; discriminate H|].
           intros [_ [H|(ab' & [= <-] & H)]]; [discriminate H | lia].
        -- intros [_ [H|(ab' & [= <-] & H)]]; [discriminate H | lia].
      * split; [|done]. in_list. split; [|tauto]. intros _.
        split; [done|]. right. exists ab. split; [done|].
        destruct (decide (numberOfChannels ab = 0%nat)) as [|Hne]; [done|].
        assert (Hsome : is_Some (audioBufferToWav ab))
          by (apply audioBufferToWav_some_iff; lia).
        rewrite Hwav in Hsome. by destruct Hsome.
    + cbn [fst snd blob]. split; [|done]. in_list. split; [|tauto].
      intros _. split; [done|]. by left.
  - cbn [fst snd blob]. split; [|done]. in_list.
    split; [intros [H|[]]; discriminate H | intros [H _]; discriminate H].
Qed.

(** ** [startRecording], [stopRecording] and [handleAnalyze] *)

Ltac in_list_all :=
  repeat first
    [ rewrite elem_of_app | rewrite elem_of_cons | rewrite elem_of_nil
    | rewrite list_elem_of_fmap ].

Lemma selectCaptureFormat_first (isTypeSupported : string → bool)
    (i : nat) (fmt : string) :
  candidates !! i = Some fmt →
  isTypeSupported fmt = true →
  (∀ j other, (j < i)%nat → candidates !! j = Some other →
              isTypeSupported other = false) →
  (selectCaptureFormat isTypeSupported).1 = fmt.
Proof.
  unfold selectCaptureFormat, candidates, formats, wav_type.
  intros Hi Hfmt Hprev.
  assert (Hlt : ∀ j other, (j < i)%nat →
            ["audio/wav"; "audio/webm;codecs=pcm"; "audio/webm;codecs=opus";
             "audio/webm"; "audio/ogg;codecs=opus"; "audio/mp4"] !! j
            = Some other → isTypeSupported other = false) by exact Hprev.
  do 6 (destruct i as [|i];
        [ injection Hi as <-;
          repeat match goal with
          | |- context [isTypeSupported ?s] =>
              first [ rewrite Hfmt
                    | rewrite (Hlt 0%nat s) by (lia || reflexivity)
                    | rewrite (Hlt 1%nat s) by (lia || reflexivity)
                    | rewrite (Hlt 2%nat s) by (lia || reflexivity)
                    | rewrite (Hlt 3%nat s) by (lia || reflexivity)
                    | rewrite (Hlt 4%nat s) by (lia || reflexivity) ];
              cbn [negb List.find or_else fst]
          end; reflexivity
        | ]).
  discriminate Hi.
Qed.

Lemma selectCaptureFormat_default (isTypeSupported : string → bool) :
  (∀ fmt, fmt ∈ candidates → isTypeSupported fmt = false) →
  (selectCaptureFormat isTypeSupported).1 = "audio/webm".
Proof.
  unfold selectCaptureFormat, candidates, formats, wav_type.
  intros Hnone. cbn [List.find].
  rewrite !Hnone by (apply list_elem_of_In; cbn [In]; tauto).
  reflexivity.
Qed.

Lemma startRecording_cases (getUserMedia : option (list nat))
    (MediaRecorder_defined : bool) (isTypeSupported : string → bool)
    (MediaRecorder_new MediaRecorder_start : string → bool)
    (recording : option Recording) :
  let result :=
    startRecording getUserMedia MediaRecorder_defined isTypeSupported
      MediaRecorder_new MediaRecorder_start recording in
  let mimeType := (selectCaptureFormat isTypeSupported).1 in
  let alert :=
    Report (Alert "Please allow microphone permission to record audio.") in
  (∃ granted,
     getUserMedia = Some granted
     ∧ (MediaRecorder_defined = true ∧ MediaRecorder_new mimeType = true
        ∧ MediaRecorder_start mimeType = true)
     ∧ result.1 = Some {| recorder_type := mimeType; stream := granted |}
     ∧ RecorderStart ∈ result.2
     ∧ ∀ e, e ∈ result.2 →
         e = RecorderStart ∨ ∃ msg, e = Report (ConsoleLog msg))
  ∨ ((getUserMedia = None ∨ MediaRecorder_defined = false
      ∨ MediaRecorder_new mimeType = false
      ∨ MediaRecorder_start mimeType = false)
     ∧ result.1 = recording
     ∧ alert ∈ result.2
     ∧ ∀ e, e ∈ result.2 → ∃ ev, e = Report ev).
Proof.
  cbv zeta. unfold startRecording.
  pose proof (selectCaptureFormat_reports_logs isTypeSupported) as Hlogs.
  destruct getUserMedia as [granted|]; cbv zeta.
  - destruct MediaRecorder_defined.
    + destruct (MediaRecorder_new _) eqn:Hnew.
      * destruct (MediaRecorder_start _) eqn:Hstart; cbn [fst snd].
        -- left. exists granted. split; [done|]. split; [done|].
           split; [done|]. split; [in_list_all; tauto|].
           intros e. in_list_all.
           intros [[[->|[->|[]]]|(y & -> & Hy)]|[->|[->|[]]]]; eauto.
           destruct (Hlogs y Hy) as [msg ->]. eauto.
        -- right. split; [tauto|]. split; [done|].
           split; [in_list_all; tauto|]. intros e. in_list_all.
           intros [[[->|[->|[]]]|(y & -> & Hy)]|[->|[->|[]]]]; eauto.
      * right. cbn [fst snd]. split; [tauto|]. split; [done|].
        split; [in_list_all; tauto|]. intros e. in_list_all.
        intros [[[->|[->|[]]]|(y & -> & Hy)]|[->|[->|[]]]]; eauto.
    + right. cbn [fst snd]. split; [tauto|]. split; [done|].
      split; [in_list_all; tauto|]. intros e. in_list_all.
      intros [[->|[->|[]]]|[->|[->|[]]]]; eauto.
  - right. cbn [fst snd]. split; [tauto|]. split; [done|].
    split; [in_list_all; tauto|]. intros e. in_list_all.
    intros [->|[->|[->|[]]]]; eauto.
Qed.

(** X12. [startRecording] raises its alert exactly when it fails: when the
    microphone is refused, the platform has no [MediaRecorder], the
    recorder cannot be made with the chosen type, or its [start()] throws.
    It then leaves the [recording] state as it was and starts no recorder.
    Otherwise it starts the recorder and sets the state to the chosen type
    and the granted stream. *)
Theorem startRecording_alerts_iff_it_fails
    (getUserMedia : option (list nat))
    (MediaRecorder_defined : bool) (isTypeSupported : string → bool)
    (MediaRecorder_new MediaRecorder_start : string → bool)
    (recording : option Recording) :
  let result :=
    startRecording getUserMedia MediaRecorder_defined isTypeSupported
      MediaRecorder_new MediaRecorder_start recording in
  let mimeType := (selectCaptureFormat isTypeSupported).1 in
  let alert :=
    Report (Alert "Please allow microphone permission to record audio.") in
  (alert ∈ result.2
   ↔ getUserMedia = None ∨ MediaRecorder_defined = false
     ∨ MediaRecorder_new mimeType = false
     ∨ MediaRecorder_start mimeType = false)
  ∧ (RecorderStart ∈ result.2 ↔ (alert ∉ result.2))
  ∧ (alert ∈ result.2 → result.1 = recording)
  ∧ (alert ∉ result.2 →
     ∃ granted, getUserMedia = Some granted
                ∧ result.1 = Some {| recorder_type := mimeType;
                                     stream := granted |}).
Proof.
  cbv zeta.
  destruct (startRecording_cases getUserMedia MediaRecorder_defined
              isTypeSupported MediaRecorder_new MediaRecorder_start recording)
    as [(granted & Hg & (Hdef & Hnew & Hrun) & Hstate & Hstart & Hall)
       |(Hfail & Hstate & Halert & Hall)].
  - assert (Halert :
      Report (Alert "Please allow microphone permission to record audio.")
      ∉ (startRecording getUserMedia MediaRecorder_defined isTypeSupported
           MediaRecorder_new MediaRecorder_start recording).2).
    { intros Hin. destruct (Hall _ Hin) as [H|[msg H]]; discriminate H. }
    split; [split; [by intros H | intros [H|[H|[H|H]]]; congruence]|].
    split; [by split|]. split; [by intros H|].
    intros _. by exists granted.
  - assert (Hstart :
      RecorderStart
      ∉ (startRecording getUserMedia MediaRecorder_defined isTypeSupported
           MediaRecorder_new MediaRecorder_start recording).2).
    { intros Hin. destruct (Hall _ Hin) as [ev H]. discriminate H. }
    split; [by split|].
    split; [split; intros H; [by destruct Hstart | by destruct H]|].
    split; [done|]. intros H. by destruct H.
Qed.

(** X13. On a platform that has [MediaRecorder], whose constructor accepts
    exactly the types [isTypeSupported] reports and whose [start()]
    returns, with the microphone granted, recording starts exactly when
    one of the six candidates is supported; when none is, the
    [audio/webm] default fails too and the alert is raised. *)
Theorem startRecording_needs_a_supported_candidate
    (granted : list nat) (isTypeSupported : string → bool)
    (MediaRecorder_new MediaRecorder_start : string → bool) :
  (∀ mimeType, MediaRecorder_new mimeType = isTypeSupported mimeType) →
  (∀ mimeType, MediaRecorder_start mimeType = true) →
  let result :=
    startRecording (Some granted) true isTypeSupported MediaRecorder_new
      MediaRecorder_start None in
  (is_Some result.1
   ↔ ∃ fmt, fmt ∈ candidates ∧ isTypeSupported fmt = true)
  ∧ (result.1 = None
     ↔ Report (Alert "Please allow microphone permission to record audio.")
       ∈ result.2).
Proof.
  intros Hnew Hrun. cbv zeta.
  destruct (selectCaptureFormat_cases isTypeSupported) as [Hin Hsupp].
  destruct (startRecording_cases (Some granted) true isTypeSupported
              MediaRecorder_new MediaRecorder_start None)
    as [(g & Hg & (_ & Hok & _) & Hstate & Hstart & Hall)
       |(Hfail & Hstate & Halert & Hall)];
    rewrite Hstate.
  - split; split.
    + intros _. eexists. split; [exact Hin|]. by rewrite <- Hnew.
    + intros _. by eexists.
    + intros H. discriminate H.
    + intros H. destruct (Hall _ H) as [H'|[msg H']]; discriminate H'.
  - destruct Hfail as [Hfail|[Hfail|[Hfail|Hfail]]];
      [discriminate Hfail | discriminate Hfail | | congruence].
    rewrite Hnew in Hfail. split; split.
    + intros [r Hr]. discriminate Hr.
    + intros Hex. apply Hsupp in Hex. congruence.
    + done.
    + done.
Qed.

Lemma startRecording_needs_a_supported_candidate_witness :
  let isTypeSupported := String.eqb "audio/mp4" in
  let result :=
    startRecording (Some [7%nat]) true isTypeSupported isTypeSupported
      (λ _, true) None in
  (is_Some result.1
   ↔ ∃ fmt, fmt ∈ candidates ∧ isTypeSupported fmt = true)
  ∧ (result.1 = None
     ↔ Report (Alert "Please allow microphone permission to record audio.")
       ∈ result.2).
Proof.
  apply (startRecording_needs_a_supported_candidate [7%nat]
           (String.eqb "audio/mp4") (String.eqb "audio/mp4") (λ _, true));
    reflexivity.
Defined.

(** X14. After [startRecording] with a granted stream, [stopRecording]
    on the state it leaves stops a track of that stream exactly when the
    recorder was made and started: if the platform has no
    [MediaRecorder], the constructor rejects the type or [start()]
    throws, the state holds no stream and the granted tracks are never
    stopped.  The recorder is stopped exactly when it was started. *)
Theorem granted_tracks_stopped_iff_recorder_made
    (granted : list nat) (track : nat)
    (MediaRecorder_defined : bool) (isTypeSupported : string → bool)
    (MediaRecorder_new MediaRecorder_start : string → bool) :
  track ∈ granted →
  let mimeType := (selectCaptureFormat isTypeSupported).1 in
  let started :=
    startRecording (Some granted) MediaRecorder_defined isTypeSupported
      MediaRecorder_new MediaRecorder_start None in
  let stopped := stopRecording started.1 in
  stopped.1 = None
  ∧ (TrackStop track ∈ started.2 ++ stopped.2
     ↔ MediaRecorder_defined = true ∧ MediaRecorder_new mimeType = true
       ∧ MediaRecorder_start mimeType = true)
  ∧ (RecorderStop ∈ stopped.2 ↔ RecorderStart ∈ started.2).
Proof.
  intros Htrack. cbv zeta.
  destruct (startRecording_cases (Some granted) MediaRecorder_defined
              isTypeSupported MediaRecorder_new MediaRecorder_start None)
    as [(g & [= <-] & Hok & Hstate & Hstart & Hall)
       |(Hfail & Hstate & Halert & Hall)];
    rewrite Hstate; cbn [stopRecording fst snd stream].
  - split; [done|]. split.
    + split; [done|]. intros _. in_list_all.
      right. right. left. exists track. by split.
    + split; [done|]. intros _. in_list_all. tauto.
  - split; [done|]. rewrite app_nil_r. split.
    + split.
      * intros Hin. destruct (Hall _ Hin) as [ev H]. discriminate H.
      * intros (Hdef & Hnew & Hrun).
        destruct Hfail as [H|[H|[H|H]]]; congruence.
    + split; [by rewrite elem_of_nil|].
      intros Hin. destruct (Hall _ Hin) as [ev H]. discriminate H.
Qed.

Lemma granted_tracks_stopped_iff_recorder_made_witness :
  let started :=
    startRecording (Some [7%nat; 8%nat]) true (String.eqb "audio/mp4")
      (λ _, true) (λ _, true) None in
  let stopped := stopRecording started.1 in
  stopped.1 = None
  ∧ (TrackStop 8%nat ∈ started.2 ++ stopped.2
     ↔ true = true ∧ true = true ∧ true = true)
  ∧ (RecorderStop ∈ stopped.2 ↔ RecorderStart ∈ started.2).
Proof.
  apply (granted_tracks_stopped_iff_recorder_made [7%nat; 8%nat] 8%nat
           true (String.eqb "audio/mp4") (λ _, true) (λ _, true)).
  in_list_all. tauto.
Defined.

(** C8, as the code has it.  With the candidates in their fixed order,
    [audio/wav] first, the recorder type is the first candidate the
    platform reports as supported, and the default [audio/webm] when the
    platform supports none of them.  The choice itself is reported on
    the console log only, and when the recorder is made with the chosen
    type and starts, [startRecording] reports nothing but console log
    lines: no error and no alert.  When no candidate is supported,
    though, the default is handed to the constructor all the same, and a
    constructor that rejects it ends in the alert of the [catch], the
    [recording] state left as it was. *)
Theorem selectCaptureFormat_first_supported
    (isTypeSupported : string → bool)
    (MediaRecorder_new MediaRecorder_start : string → bool)
    (granted : list nat) (recording : option Recording) :
  let mimeType := (selectCaptureFormat isTypeSupported).1 in
  let events := (selectCaptureFormat isTypeSupported).2 in
  let result :=
    startRecording (Some granted) true isTypeSupported MediaRecorder_new
      MediaRecorder_start recording in
  (∀ i fmt,
     candidates !! i = Some fmt →
     isTypeSupported fmt = true →
     (∀ j other, (j < i)%nat → candidates !! j = Some other →
                 isTypeSupported other = false) →
     mimeType = fmt)
  ∧ ((∀ fmt, fmt ∈ candidates → isTypeSupported fmt = false) →
     mimeType = "audio/webm")
  ∧ (∀ e, e ∈ events → ∃ msg, e = ConsoleLog msg)
  ∧ (MediaRecorder_new mimeType = true →
     MediaRecorder_start mimeType = true →
     ∀ e, e ∈ result.2 →
       e = RecorderStart ∨ ∃ msg, e = Report (ConsoleLog msg))
  ∧ ((∀ fmt, fmt ∈ candidates → isTypeSupported fmt = false) →
     MediaRecorder_new "audio/webm" = false →
     Report (Alert "Please allow microphone permission to record audio.")
     ∈ result.2
     ∧ result.1 = recording).
Proof.
  cbv zeta. split; [|split; [|split; [|split]]].
  - intros i fmt. apply selectCaptureFormat_first.
  - apply selectCaptureFormat_default.
  - apply selectCaptureFormat_reports_logs.
  - intros Hnew Hrun.
    destruct (startRecording_cases (Some granted) true isTypeSupported
                MediaRecorder_new MediaRecorder_start recording)
      as [(g & _ & _ & _ & _ & Hall)|(Hfail & _)]; [exact Hall|].
    destruct Hfail as [H|[H|[H|H]]]; congruence.
  - intros Hnone Hnew.
    rewrite <- (selectCaptureFormat_default isTypeSupported Hnone) in Hnew.
    destruct (startRecording_cases (Some granted) true isTypeSupported
                MediaRecorder_new MediaRecorder_start recording)
      as [(g & _ & (_ & Hok & _) & _)|(_ & Hstate & Halert & _)];
      [congruence | by split].
Qed.

Lemma selectCaptureFormat_first_supported_witness :
  (selectCaptureFormat (String.eqb "audio/mp4")).1 = "audio/mp4"
  ∧ (selectCaptureFormat (λ _, false)).1 = "audio/webm"
  ∧ (∀ e,
       e ∈ (startRecording (Some [7%nat]) true (String.eqb "audio/mp4")
              (String.eqb "audio/mp4") (λ _, true) None).2 →
       e = RecorderStart ∨ ∃ msg, e = Report (ConsoleLog msg))
  ∧ Report (Alert "Please allow microphone permission to record audio.")
    ∈ (startRecording (Some [7%nat]) true (λ _, false) (λ _, false)
         (λ _, true) None).2.
Proof.
  split; [|split; [|split]].
  - apply (selectCaptureFormat_first_supported (String.eqb "audio/mp4")
             (String.eqb "audio/mp4") (λ _, true) [7%nat] None)
      with (i := 5%nat); [reflexivity | reflexivity |].
    intros j other Hj Hother.
    do 5 (destruct j as [|j]; [injection Hother as <-; reflexivity|]).
    lia.
  - apply (selectCaptureFormat_first_supported (λ _, false)
             (λ _, false) (λ _, true) [7%nat] None).
    reflexivity.
  - apply (selectCaptureFormat_first_supported (String.eqb "audio/mp4")
             (String.eqb "audio/mp4") (λ _, true) [7%nat] None);
      reflexivity.
  - apply (selectCaptureFormat_first_supported (λ _, false)
             (λ _, false) (λ _, true) [7%nat] None);
      reflexivity.
Defined.

(** C8 as stated fails where no candidate is supported.  The microphone
    is granted, the platform supports none of the six types and its
    constructor rejects what [isTypeSupported] rejects: the default
    [audio/webm] is chosen, the constructor throws, and the user is shown
    the alert while nothing is recorded. *)
Lemma startRecording_fallback_alert_counterexample :
  let isTypeSupported := λ _ : string, false in
  let MediaRecorder_new := isTypeSupported in
  (selectCaptureFormat isTypeSupported).1 = "audio/webm"
  ∧ MediaRecorder_new "audio/webm" = isTypeSupported "audio/webm"
  ∧ startRecording (Some [7%nat]) true isTypeSupported MediaRecorder_new
      (λ _, true) None
    = (None,
       [ Report (ConsoleLog "Requesting microphone permission...");
         Report (ConsoleLog "Microphone access granted.");
         Report (ConsoleLog "WAV not supported, checking alternatives...");
         Report (ConsoleLog "Using format:");
         Report (ConsoleError "Microphone access error:");
         Report (Alert
           "Please allow microphone permission to record audio.") ]).
Proof. cbv zeta. repeat split; reflexivity. Qed.

Section AnalyzeFacts.

Variable json : Type.
Variable JSON_stringify : json → string.
Variable REACT_APP_BACKEND_URL : option string.
Variable fetch : string → string * Blob * string → fetch_outcome json.
Variable setItem : string → string → bool.

Local Notation "'analyze'" :=
  (routed_handleAnalyze JSON_stringify REACT_APP_BACKEND_URL fetch setItem).
Local Notation "'endpoint'" := (analyze_endpoint REACT_APP_BACKEND_URL).
Local Notation "'succeeded'" :=
  (analysis_succeeded JSON_stringify REACT_APP_BACKEND_URL fetch setItem).

Lemma handleAnalyze_cases (audioData : option AudioData) :
  (audioData = None
   ∧ analyze audioData = [ Report (Alert "Please record something first!") ])
  ∨ (∃ a result,
       audioData = Some a
       ∧ succeeded audioData
       ∧ analyze audioData
         = [ SetInnerText "Analyzing..."; SetOpacity "0.7";
             Fetch endpoint ("file", blob a, "recording.wav");
             StorageSet "emotionResult" (JSON_stringify result);
             Navigate "/page8";
             SetInnerText "Analyze"; SetOpacity "1" ])
  ∨ (∃ a,
       audioData = Some a
       ∧ ¬ succeeded audioData
       ∧ analyze audioData
         = [ SetInnerText "Analyzing..."; SetOpacity "0.7";
             Fetch endpoint ("file", blob a, "recording.wav");
             Report (ConsoleError "Error uploading audio:");
             Report (Alert
               "Failed to analyze audio. Make sure the backend is running!");
             SetInnerText "Analyze"; SetOpacity "1" ]).
Proof.
  destruct audioData as [a|]; [|by left]. right.
  unfold routed_handleAnalyze, handleAnalyze, analysis_succeeded.
  cbn [handleAnalyze_form].
  fold (analyze_endpoint REACT_APP_BACKEND_URL).
  destruct (fetch endpoint ("file", blob a, "recording.wav"))
    as [|[] [result|]] eqn:Hfetch;
    try (right; exists a; split; [done|]; split; [|done];
         intros (a' & r & [= <-] & Hr & _); congruence).
  destruct (setItem "emotionResult" (JSON_stringify result)) eqn:Hset.
  - left. exists a, result. split; [done|]. split; [|done].
    by exists a, result.
  - right. exists a. split; [done|]. split; [|done].
    intros (a' & r & [= <-] & Hr & Hs). congruence.
Qed.

(** X15. A click on Analyze with the route's callback ends in exactly one
    of two ways: it navigates to [/page8] or it raises an alert.  It
    navigates exactly when there is a recording, the response is ok, its
    JSON is read and [localStorage] takes the result, which is also
    exactly when the result is stored; it sends a request exactly when
    there is a recording; and whenever it sends one, the button is set
    busy first and restored last. *)
Theorem analyze_navigates_or_alerts (audioData : option AudioData) :
  (Navigate "/page8" ∈ analyze audioData ↔ succeeded audioData)
  ∧ ((∃ value, StorageSet "emotionResult" value ∈ analyze audioData)
     ↔ succeeded audioData)
  ∧ ((∃ msg, Report (Alert msg) ∈ analyze audioData)
     ↔ ¬ succeeded audioData)
  ∧ ((∃ field, Fetch endpoint field ∈ analyze audioData)
     ↔ is_Some audioData)
  ∧ (is_Some audioData →
     ∃ middle,
       analyze audioData
       = [ SetInnerText "Analyzing..."; SetOpacity "0.7" ] ++ middle
         ++ [ SetInnerText "Analyze"; SetOpacity "1" ]).
Proof.
  destruct (handleAnalyze_cases audioData)
    as [[-> ->]|[(a & result & -> & Hok & ->)|(a & -> & Hko & ->)]].
  - assert (Hko : ¬ succeeded None)
      by (intros (a & r & H & _); discriminate H).
    split; [|split; [|split; [|split]]].
    + in_list_all. split; [intros [H|[]]; discriminate H | done].
    + split; [|done]. intros [v H]. revert H. in_list_all.
      intros [H|[]]; discriminate H.
    + split; [done|]. intros _. eexists. in_list_all. by left.
    + split; [|intros [a H]; discriminate H]. intros [f H]. revert H.
      in_list_all. intros [H|[]]; discriminate H.
    + intros [a H]; discriminate H.
  - split; [|split; [|split; [|split]]].
    + split; [done|]. intros _. in_list_all. tauto.
    + split; [done|]. intros _. eexists. in_list_all.
      right. right. right. by left.
    + split; [|done]. intros [msg H]. revert H. in_list_all.
      intros [H|[H|[H|[H|[H|[H|[H|[]]]]]]]]; discriminate H.
    + split; [by eexists|]. intros _. eexists. in_list_all.
      right. right. by left.
    + intros _. by eexists [_; _; _].
  - split; [|split; [|split; [|split]]].
    + split; [|done]. in_list_all.
      intros [H|[H|[H|[H|[H|[H|[H|[]]]]]]]]; discriminate H.
    + split; [|done]. intros [v H]. revert H. in_list_all.
      intros [H|[H|[H|[H|[H|[H|[H|[]]]]]]]]; discriminate H.
    + split; [done|]. intros _. eexists. in_list_all.
      right. right. right. right. by left.
    + split; [by eexists|]. intros _. eexists. in_list_all.
      right. right. by left.
    + intros _. by eexists [_; _; _].
Qed.

End AnalyzeFacts.
